(** * fovis: the visual-odometry driver, its options and the pyramid level

    A shallow embedding of [src/src/visual_odometry.cpp] and of the
    constructor of [src/src/pyramid_level.cpp], with the properties of the
    reference-frame state machine, the adaptive FAST threshold, the option
    validation and the keypoint bounds.

    Classes whose implementation is not part of these sources (the Eigen
    types, [OdometryFrame], [MotionEstimator], [InitialHomographyEstimator],
    the option parsers of [internal_utils]) appear as interfaces; every
    call the driver makes on them is recorded in a trace. *)

From Stdlib Require Import ZArith QArith Lia.
From Stdlib Require Import Floats.SpecFloat.
From stdpp Require Import base option list strings gmap fin_maps.

Local Open Scope Z_scope.

(** ** 32-bit [int] arithmetic *)

Module Int32.

Definition min_signed : Z := - 2 ^ 31.
Definition max_signed : Z := 2 ^ 31 - 1.

Definition in_range (z : Z) : bool := (min_signed <=? z) && (z <=? max_signed).

(** Two's-complement wrap-around of a mathematical result. *)
Definition wrap (z : Z) : Z := (z + 2 ^ 31) mod 2 ^ 32 - 2 ^ 31.

Definition add (a b : Z) : Z := wrap (a + b).
Definition sub (a b : Z) : Z := wrap (a - b).
Definition mul (a b : Z) : Z := wrap (a * b).

(** [a / b] truncates toward zero.  A zero divisor and [INT_MIN / -1]
    raise the hardware divide error: no result. *)
Definition div (a b : Z) : option Z :=
  if b =? 0 then None
  else if (a =? min_signed) && (b =? -1) then None
  else Some (Z.quot a b).

Definition shl (a n : Z) : Z := wrap (Z.shiftl a n).

End Int32.

(** ** IEEE binary64 [double] *)

Module Double.

Definition prec : Z := 53.
Definition emax : Z := 1024.

Definition double : Type := spec_float.

(** Conversion of an [int]: exact, every 32-bit integer is a binary64. *)
Definition of_int (z : Z) : double := binary_normalize prec emax z 0 false.

Definition mul (x y : double) : double := SFmul prec emax x y.
Definition div (x y : double) : double := SFdiv prec emax x y.

(** The integer part of a finite value [(-1)^s * m * 2^e]: the quotient
    that truncates toward zero.  Infinities and NaN have none. *)
Definition trunc (x : double) : option Z :=
  match x with
  | S754_zero _ => Some 0
  | S754_finite s m e =>
      Some (match e with
            | Zneg p => Z.quot (cond_Zopp s (Zpos m)) (2 ^ Zpos p)
            | _ => cond_Zopp s (Zpos m) * 2 ^ e
            end)
  | S754_infinity _ | S754_nan => None
  end.

(** The cast [(int) x].  A NaN, an infinity or a value whose integer part
    does not fit an [int] is the invalid operation, which the constructor
    of the driver unmasks ([_controlfp] on [_EM_INVALID]): no result. *)
Definition to_int (x : double) : option Z :=
  match trunc x with
  | Some z => if Int32.in_range z then Some z else None
  | None => None
  end.

(** Rounding to the nearest integer, halves away from zero (C's [round]);
    the reading of the word "round" that the threshold rule of the
    specification is compared with. *)
Definition round_nearest (x : double) : option Z :=
  match x with
  | S754_zero _ => Some 0
  | S754_finite s m e =>
      Some (match e with
            | Zneg p => cond_Zopp s ((Zpos m + 2 ^ (Zpos p - 1)) / 2 ^ Zpos p)
            | _ => cond_Zopp s (Zpos m) * 2 ^ e
            end)
  | S754_infinity _ | S754_nan => None
  end.

Definition round_to_int (x : double) : option Z :=
  match round_nearest x with
  | Some z => if Int32.in_range z then Some z else None
  | None => None
  end.

End Double.

Import Double(double).

(** A [double] that is not negative: a zero, a positive number or plus
    infinity. *)
Definition double_nonnegative (x : double) : bool :=
  match x with
  | S754_zero _ => true
  | S754_finite s _ _ => negb s
  | S754_infinity s => negb s
  | S754_nan => false
  end.

(** ** [clamp] *)

Definition clamp (val minval maxval : Z) : Z :=
  if val >? maxval then maxval
  else if val <? minval then minval
  else val.

(** The macro [MIN(a,b) ((a)<(b) ? (a) : (b))]. *)
Definition MIN (a b : Z) : Z := if a <? b then a else b.

(** ** Options *)

(** [VisualOdometryOptions] is a [std::map<std::string, std::string>]. *)
Abbreviation VisualOdometryOptions := (gmap string string).

(** [_toString(v)] prints with ["%f"]: six decimals.  It is only applied to
    the literals below. *)
Definition toString_0_005 : string := "0.005000".
Definition toString_1_5 : string := "1.500000".
Definition toString_0_1 : string := "0.100000".
Definition toString_10_0 : string := "10.000000".
Definition toString_1_0 : string := "1.000000".

Definition getDefaultOptions : VisualOdometryOptions :=
  (* VisualOdometry, OdometryFrame *)
  <["feature-window-size" := "9"]> $
  <["max-pyramid-level" := "3"]> $
  <["min-pyramid-level" := "0"]> $
  <["target-pixels-per-feature" := "250"]> $
  <["fast-threshold" := "20"]> $
  <["use-adaptive-threshold" := "true"]> $
  <["fast-threshold-adaptive-gain" := toString_0_005]> $
  <["use-homography-initialization" := "true"]> $
  <["ref-frame-change-threshold" := "150"]> $
  (* OdometryFrame *)
  <["use-bucketing" := "true"]> $
  <["bucket-width" := "80"]> $
  <["bucket-height" := "80"]> $
  <["max-keypoints-per-bucket" := "25"]> $
  <["use-image-normalization" := "false"]> $
  (* MotionEstimator *)
  <["inlier-max-reprojection-error" := toString_1_5]> $
  <["clique-inlier-threshold" := toString_0_1]> $
  <["min-features-for-estimate" := "10"]> $
  <["max-mean-reprojection-error" := toString_10_0]> $
  <["use-subpixel-refinement" := "true"]> $
  <["feature-search-window" := "25"]> $
  <["update-target-features-with-refined" := "false"]> $
  (* StereoDepth *)
  <["stereo-require-mutual-match" := "true"]> $
  <["stereo-max-dist-epipolar-line" := toString_1_5]> $
  <["stereo-max-refinement-displacement" := toString_1_0]> $
  <["stereo-max-disparity" := "128"]> (∅ : VisualOdometryOptions).

(** [validateOptions]: one line ["VisualOdometry WARNING: unrecognized
    option [key]"] on [stderr] for each entry of [options] whose key
    [defaults.find] does not find.  The result is the list of the keys
    warned about; the map is walked entry by entry (the order in which the
    lines appear is not part of the model). *)
Definition validateOptions (options defaults : VisualOdometryOptions) : list string :=
  (map_to_list (filter (λ kv, defaults !! kv.1 = None) options)).*1.

(** ** The pyramid level ([pyramid_level.cpp]) *)

Definition ALIGNMENT : Z := 16.

Record PyramidLevel := {
  _width : Z;
  _height : Z;
  _raw_gray_stride : Z;
  _raw_gray : list Z;
  _keypoint_min_x : Z;
  _keypoint_min_y : Z;
  _keypoint_max_x : Z;
  _keypoint_max_y : Z;
  _pyrbuf_size : Z;
  _level_num : Z;
  _num_keypoints : Z;
  _keypoints_capacity : Z;
  _descriptor_stride : Z;
  _descriptors_size : Z
}.

Section PyramidLevelCtor.

(** Declared in headers that are not part of these sources. *)
Variable round_up_to_multiple : Z -> Z -> Z.
Variable gauss_pyr_down_get_buf_size_8u_C1R : Z -> Z -> Z.
(** [IntensityDescriptorExtractor(stride, window)->getDescriptorStride()] *)
Variable getDescriptorStride : Z -> Z -> Z.

(** [PyramidLevel::PyramidLevel], with the aligned allocations taken to
    succeed; the image buffer is [stride * height] zero bytes. *)
Definition PyramidLevel_new (width height level_num feature_window_size : Z)
  : PyramidLevel :=
  let stride := round_up_to_multiple width ALIGNMENT in
  let desc_stride := getDescriptorStride stride feature_window_size in
  {| _width := width;
     _height := height;
     _raw_gray_stride := stride;
     _raw_gray := replicate (Z.to_nat (Int32.mul stride height)) 0;
     _keypoint_min_x := feature_window_size;
     _keypoint_min_y := feature_window_size;
     _keypoint_max_x := Int32.sub (Int32.sub width feature_window_size) 2;
     _keypoint_max_y := Int32.sub (Int32.sub height feature_window_size) 2;
     _pyrbuf_size := gauss_pyr_down_get_buf_size_8u_C1R width height;
     _level_num := level_num;
     _num_keypoints := 0;
     _keypoints_capacity := 1500;
     _descriptor_stride := desc_stride;
     _descriptors_size := Int32.mul 1500 desc_stride |}.

End PyramidLevelCtor.

(** How a member function ends: it returns, or it throws and leaves the
    object as it is at the throw. *)
Inductive Completion (A : Type) : Type :=
| Returned (object : A)
| Thrown (object : A).

Arguments Returned {A} object.
Arguments Thrown {A} object.

Section Capacity.

(** Whether [new KeypointData[n]] finds room for [n >= 0] elements. *)
Variable heap_has_room : Z -> bool.

(** [PyramidLevel::increase_capacity]: [_keypoints_capacity] is assigned
    first; the keypoint array is deleted and allocated anew, and
    [new KeypointData[_keypoints_capacity]] throws for a negative capacity
    and where the heap has no room, before the descriptor buffer is
    touched; then the descriptor buffer is freed and allocated anew for
    [_keypoints_capacity * getDescriptorStride ()] bytes, the aligned
    allocation taken to succeed as in the constructor.  No other member is
    assigned, [_num_keypoints] included. *)
Definition increase_capacity (level : PyramidLevel) (new_capacity : Z)
  : Completion PyramidLevel :=
  let level :=
    {| _width := _width level;
       _height := _height level;
       _raw_gray_stride := _raw_gray_stride level;
       _raw_gray := _raw_gray level;
       _keypoint_min_x := _keypoint_min_x level;
       _keypoint_min_y := _keypoint_min_y level;
       _keypoint_max_x := _keypoint_max_x level;
       _keypoint_max_y := _keypoint_max_y level;
       _pyrbuf_size := _pyrbuf_size level;
       _level_num := _level_num level;
       _num_keypoints := _num_keypoints level;
       _keypoints_capacity := new_capacity;
       _descriptor_stride := _descriptor_stride level;
       _descriptors_size := _descriptors_size level |} in
  if (_keypoints_capacity level <? 0) || negb (heap_has_room (_keypoints_capacity level))
  then Thrown level
  else
    (* allocate descriptor buffers *)
    let descriptor_buf_size :=
      Int32.mul (_keypoints_capacity level) (_descriptor_stride level) in
    Returned
      {| _width := _width level;
         _height := _height level;
         _raw_gray_stride := _raw_gray_stride level;
         _raw_gray := _raw_gray level;
         _keypoint_min_x := _keypoint_min_x level;
         _keypoint_min_y := _keypoint_min_y level;
         _keypoint_max_x := _keypoint_max_x level;
         _keypoint_max_y := _keypoint_max_y level;
         _pyrbuf_size := _pyrbuf_size level;
         _level_num := _level_num level;
         _num_keypoints := _num_keypoints level;
         _keypoints_capacity := _keypoints_capacity level;
         _descriptor_stride := _descriptor_stride level;
         _descriptors_size := descriptor_buf_size |}.

(** One call after the other, up to the first that throws. *)
Fixpoint increase_capacities (level : PyramidLevel) (capacities : list Z)
  : Completion PyramidLevel :=
  match capacities with
  | [] => Returned level
  | new_capacity :: rest =>
      match increase_capacity level new_capacity with
      | Returned level => increase_capacities level rest
      | Thrown level => Thrown level
      end
  end.

End Capacity.

(** The members of a level other than the capacity of the keypoint array
    and the size of the descriptor buffer. *)
Definition beside_capacity (level : PyramidLevel) :=
  (_width level, _height level, _raw_gray_stride level, _raw_gray level,
   _keypoint_min_x level, _keypoint_min_y level, _keypoint_max_x level,
   _keypoint_max_y level, _pyrbuf_size level, _level_num level, _num_keypoints level,
   _descriptor_stride level).

(** A keypoint candidate: image coordinates (a finite [float] is a
    rational) and the FAST score. *)
Record KeyPoint := { kp_u : Q; kp_v : Q; kp_score : Z }.

(** Modelled from the spec: the filter of the frame preparation
    ([OdometryFrame::prepareFrame], whose source is not at hand) that
    decides which detected candidates a level reports.  Section 8.3 of the
    specification bounds every reported keypoint by the four bound fields
    the level was constructed with; a candidate outside them is dropped. *)
Definition isLegalKeypointCoordinate (level : PyramidLevel) (kp : KeyPoint) : bool :=
  Qle_bool (inject_Z (_keypoint_min_x level)) (kp_u kp)
  && Qle_bool (kp_u kp) (inject_Z (_keypoint_max_x level))
  && Qle_bool (inject_Z (_keypoint_min_y level)) (kp_v kp)
  && Qle_bool (kp_v kp) (inject_Z (_keypoint_max_y level)).

(** Modelled from the spec: the keypoints a level reports out of the
    candidates handed over by detection, bucketing and refinement. *)
Definition reportedKeypoints (level : PyramidLevel) (candidates : list KeyPoint)
  : list KeyPoint :=
  List.filter (isLegalKeypointCoordinate level) candidates.

(** ** Interfaces of the collaborating classes *)

(** The Eigen values the driver computes with.  [Scalar] stands for the
    [float] and [double] entries alike (the casts between them are not
    modelled); the operations are the ones the driver calls.  The
    constructor unmasks the invalid, zero-divide and overflow exceptions
    ([_controlfp], lines 65-67), so the division and [asin] have no value
    where they raise one: a zero divisor, a quotient out of range, an
    argument of [asin] outside [[-1, 1]]. *)
Class Geometry := {
  Scalar : Type;
  scalar_of_int : Z -> Scalar;
  scalar_div : Scalar -> Scalar -> option Scalar;
  scalar_neg : Scalar -> Scalar;
  scalar_asin : Scalar -> option Scalar;
  scalar_atan2 : Scalar -> Scalar -> Scalar;
  (** [Eigen::Matrix3f] *)
  Matrix3f : Type;
  m3_Identity : Matrix3f;
  m3_times_scalar : Matrix3f -> Scalar -> Matrix3f;
  m3_set : Matrix3f -> nat -> nat -> Scalar -> Matrix3f;
  m3_get : Matrix3f -> nat -> nat -> Scalar;
  m3_mul : Matrix3f -> Matrix3f -> Matrix3f;
  m3_inverse : Matrix3f -> Matrix3f;
  (** [Eigen::Quaterniond]; [quat_wxyz 1 0 0 0] is the identity *)
  Quaterniond : Type;
  quat_wxyz : Z -> Z -> Z -> Z -> Quaterniond;
  _rpy_to_quat : Scalar -> Scalar -> Scalar -> Quaterniond;
  (** [Eigen::Isometry3d] *)
  Isometry3d : Type;
  iso_default : Isometry3d;
  iso_Identity : Isometry3d;
  iso_mul : Isometry3d -> Isometry3d -> Isometry3d;
  iso_inverse : Isometry3d -> Isometry3d;
  iso_rotate : Isometry3d -> Quaterniond -> Isometry3d;
  (** [Eigen::MatrixXd] *)
  MatrixXd : Type;
  mx_default : MatrixXd;
  mx_setIdentity : MatrixXd -> MatrixXd;
  mx_setIdentity_sized : Z -> Z -> MatrixXd
}.

(** [CameraIntrinsicsParameters], the caller's image and depth source, and
    [OdometryFrame]. *)
Class FrameAPI `{Geometry} := {
  CameraIntrinsicsParameters : Type;
  cam_width : CameraIntrinsicsParameters -> Z;
  cam_height : CameraIntrinsicsParameters -> Z;
  cam_fx : CameraIntrinsicsParameters -> Scalar;
  Image : Type;
  DepthSource : Type;
  OdometryFrame : Type;
  OdometryFrame_new : CameraIntrinsicsParameters -> VisualOdometryOptions -> OdometryFrame;
  prepareFrame : OdometryFrame -> Image -> Z -> DepthSource -> OdometryFrame;
  getNumDetectedKeypoints : OdometryFrame -> Z;
  getNumLevels : OdometryFrame -> Z;
  getLevel : OdometryFrame -> Z -> PyramidLevel
}.

(** [InitialHomographyEstimator]. *)
Class HomographyAPI `{Geometry} := {
  InitialHomographyEstimator : Type;
  ihe_new : InitialHomographyEstimator;
  setTemplateImage :
    InitialHomographyEstimator -> list Z -> Z -> Z -> Z -> Z -> InitialHomographyEstimator;
  setTestImage :
    InitialHomographyEstimator -> list Z -> Z -> Z -> Z -> Z -> InitialHomographyEstimator;
  track : InitialHomographyEstimator -> Matrix3f -> Z -> Matrix3f
}.

(** [MotionEstimator].  [estimateMotion] receives both frames by pointer
    and may write to them: it returns the estimator and the two frames as
    it leaves them. *)
Class EstimatorAPI `{FrameAPI} := {
  MotionEstimator : Type;
  MotionEstimator_new : CameraIntrinsicsParameters -> VisualOdometryOptions -> MotionEstimator;
  estimateMotion :
    MotionEstimator -> OdometryFrame -> OdometryFrame -> DepthSource ->
    Isometry3d -> MatrixXd -> MotionEstimator * OdometryFrame * OdometryFrame;
  isMotionEstimateValid : MotionEstimator -> bool;
  getMotionEstimate : MotionEstimator -> Isometry3d;
  getMotionEstimateCov : MotionEstimator -> MatrixXd;
  getNumInliers : MotionEstimator -> Z
}.

(** The parsers of the three kinds of option values ([internal_utils],
    whose source is not at hand). *)
Class OptionParsers := {
  parseInt : string -> option Z;
  parseBool : string -> option bool;
  parseDouble : string -> option double
}.

(** Modelled from the spec: the option readers of [internal_utils],
    [optionsGetIntOrFromDefault], [optionsGetBoolOrFromDefault] and
    [optionsGetDoubleOrFromDefault], whose source is not at hand.  Section 7
    of the specification: for an unknown key or a value that is not valid
    the driver continues with the default, so a reader returns the value
    supplied under [name] when it parses and the default otherwise (no
    value when the default does not parse either). *)
Definition optionsGetOrFromDefault {A} (parse : string -> option A)
    (options : VisualOdometryOptions) (name : string)
    (defaults : VisualOdometryOptions) : option A :=
  match options !! name ≫= parse with
  | Some v => Some v
  | None => defaults !! name ≫= parse
  end.

Definition optionsGetIntOrFromDefault `{OptionParsers} :=
  optionsGetOrFromDefault parseInt.
Definition optionsGetBoolOrFromDefault `{OptionParsers} :=
  optionsGetOrFromDefault parseBool.
Definition optionsGetDoubleOrFromDefault `{OptionParsers} :=
  optionsGetOrFromDefault parseDouble.

(** ** The driver's state *)

(** The three [OdometryFrame] objects the constructor allocates; the
    members [_ref_frame], [_prev_frame] and [_cur_frame] point to them. *)
Inductive frame_ptr := FrameA | FrameB | FrameC.

Global Instance frame_ptr_eq_dec : EqDecision frame_ptr.
Proof. solve_decision. Defined.

Section Driver.

Context {GEO : Geometry} {FRM : FrameAPI} {EST : EstimatorAPI} {HOM : HomographyAPI}.

(** The calls the driver makes on its collaborators. *)
Inductive Event :=
| EvPrepareFrame (frame : frame_ptr) (fast_threshold : Z)
| EvInitialRotation (template test : frame_ptr) (pyrLevel downsample : Z)
| EvEstimateMotion (reference target : frame_ptr) (init : Isometry3d)
    (valid : bool) (num_inliers : Z).

Record VisualOdometryPriv := {
  motion_estimate : Isometry3d;
  motion_estimate_covariance : MatrixXd;
  pose : Isometry3d;
  ref_to_prev_frame : Isometry3d;
  initial_motion_estimate : Isometry3d;
  initial_motion_cov : MatrixXd;
  initial_homography_est : Matrix3f
}.

Record VisualOdometry := {
  _options : VisualOdometryOptions;
  _params : CameraIntrinsicsParameters;
  _ref_frame : frame_ptr;
  _prev_frame : frame_ptr;
  _cur_frame : frame_ptr;
  frames : frame_ptr -> OdometryFrame;
  _change_reference_frames : bool;
  _ref_frame_change_threshold : Z;
  _frame_count : Z;
  _feature_window_size : Z;
  _num_pyramid_levels : Z;
  _target_pixels_per_feature : Z;
  _use_homography_initialization : bool;
  _fast_threshold : Z;
  _use_adaptive_threshold : bool;
  _fast_threshold_adaptive_gain : double;
  _fast_threshold_min : Z;
  _fast_threshold_max : Z;
  _initial_rotation_pyramid_level : Z;
  _p : VisualOdometryPriv;
  _estimator : MotionEstimator
}.

(** Assignments to single members. *)

Definition update_p (f : VisualOdometryPriv -> VisualOdometryPriv) (vo : VisualOdometry)
  : VisualOdometry :=
  {| _options := _options vo; _params := _params vo; _ref_frame := _ref_frame vo;
     _prev_frame := _prev_frame vo; _cur_frame := _cur_frame vo; frames := frames vo;
     _change_reference_frames := _change_reference_frames vo;
     _ref_frame_change_threshold := _ref_frame_change_threshold vo;
     _frame_count := _frame_count vo; _feature_window_size := _feature_window_size vo;
     _num_pyramid_levels := _num_pyramid_levels vo;
     _target_pixels_per_feature := _target_pixels_per_feature vo;
     _use_homography_initialization := _use_homography_initialization vo;
     _fast_threshold := _fast_threshold vo;
     _use_adaptive_threshold := _use_adaptive_threshold vo;
     _fast_threshold_adaptive_gain := _fast_threshold_adaptive_gain vo;
     _fast_threshold_min := _fast_threshold_min vo;
     _fast_threshold_max := _fast_threshold_max vo;
     _initial_rotation_pyramid_level := _initial_rotation_pyramid_level vo;
     _p := f (_p vo); _estimator := _estimator vo |}.

Definition set_motion_estimate v : VisualOdometry -> VisualOdometry :=
  update_p (fun p =>
    {| motion_estimate := v;
       motion_estimate_covariance := motion_estimate_covariance p; pose := pose p;
       ref_to_prev_frame := ref_to_prev_frame p;
       initial_motion_estimate := initial_motion_estimate p;
       initial_motion_cov := initial_motion_cov p;
       initial_homography_est := initial_homography_est p |}).

Definition set_motion_estimate_covariance v : VisualOdometry -> VisualOdometry :=
  update_p (fun p =>
    {| motion_estimate := motion_estimate p; motion_estimate_covariance := v;
       pose := pose p; ref_to_prev_frame := ref_to_prev_frame p;
       initial_motion_estimate := initial_motion_estimate p;
       initial_motion_cov := initial_motion_cov p;
       initial_homography_est := initial_homography_est p |}).

Definition set_pose v : VisualOdometry -> VisualOdometry :=
  update_p (fun p =>
    {| motion_estimate := motion_estimate p;
       motion_estimate_covariance := motion_estimate_covariance p; pose := v;
       ref_to_prev_frame := ref_to_prev_frame p;
       initial_motion_estimate := initial_motion_estimate p;
       initial_motion_cov := initial_motion_cov p;
       initial_homography_est := initial_homography_est p |}).

Definition set_ref_to_prev_frame v : VisualOdometry -> VisualOdometry :=
  update_p (fun p =>
    {| motion_estimate := motion_estimate p;
       motion_estimate_covariance := motion_estimate_covariance p; pose := pose p;
       ref_to_prev_frame := v; initial_motion_estimate := initial_motion_estimate p;
       initial_motion_cov := initial_motion_cov p;
       initial_homography_est := initial_homography_est p |}).

Definition set_initial_motion_estimate v : VisualOdometry -> VisualOdometry :=
  update_p (fun p =>
    {| motion_estimate := motion_estimate p;
       motion_estimate_covariance := motion_estimate_covariance p; pose := pose p;
       ref_to_prev_frame := ref_to_prev_frame p; initial_motion_estimate := v;
       initial_motion_cov := initial_motion_cov p;
       initial_homography_est := initial_homography_est p |}).

Definition set_initial_motion_cov v : VisualOdometry -> VisualOdometry :=
  update_p (fun p =>
    {| motion_estimate := motion_estimate p;
       motion_estimate_covariance := motion_estimate_covariance p; pose := pose p;
       ref_to_prev_frame := ref_to_prev_frame p;
       initial_motion_estimate := initial_motion_estimate p; initial_motion_cov := v;
       initial_homography_est := initial_homography_est p |}).

Definition set_initial_homography_est v : VisualOdometry -> VisualOdometry :=
  update_p (fun p =>
    {| motion_estimate := motion_estimate p;
       motion_estimate_covariance := motion_estimate_covariance p; pose := pose p;
       ref_to_prev_frame := ref_to_prev_frame p;
       initial_motion_estimate := initial_motion_estimate p;
       initial_motion_cov := initial_motion_cov p; initial_homography_est := v |}).

Definition set_frames v (vo : VisualOdometry) : VisualOdometry :=
  {| _options := _options vo; _params := _params vo; _ref_frame := _ref_frame vo;
     _prev_frame := _prev_frame vo; _cur_frame := _cur_frame vo; frames := v;
     _change_reference_frames := _change_reference_frames vo;
     _ref_frame_change_threshold := _ref_frame_change_threshold vo;
     _frame_count := _frame_count vo; _feature_window_size := _feature_window_size vo;
     _num_pyramid_levels := _num_pyramid_levels vo;
     _target_pixels_per_feature := _target_pixels_per_feature vo;
     _use_homography_initialization := _use_homography_initialization vo;
     _fast_threshold := _fast_threshold vo;
     _use_adaptive_threshold := _use_adaptive_threshold vo;
     _fast_threshold_adaptive_gain := _fast_threshold_adaptive_gain vo;
     _fast_threshold_min := _fast_threshold_min vo;
     _fast_threshold_max := _fast_threshold_max vo;
     _initial_rotation_pyramid_level := _initial_rotation_pyramid_level vo;
     _p := _p vo; _estimator := _estimator vo |}.

Definition set_change_reference_frames v (vo : VisualOdometry) : VisualOdometry :=
  {| _options := _options vo; _params := _params vo; _ref_frame := _ref_frame vo;
     _prev_frame := _prev_frame vo; _cur_frame := _cur_frame vo; frames := frames vo;
     _change_reference_frames := v;
     _ref_frame_change_threshold := _ref_frame_change_threshold vo;
     _frame_count := _frame_count vo; _feature_window_size := _feature_window_size vo;
     _num_pyramid_levels := _num_pyramid_levels vo;
     _target_pixels_per_feature := _target_pixels_per_feature vo;
     _use_homography_initialization := _use_homography_initialization vo;
     _fast_threshold := _fast_threshold vo;
     _use_adaptive_threshold := _use_adaptive_threshold vo;
     _fast_threshold_adaptive_gain := _fast_threshold_adaptive_gain vo;
     _fast_threshold_min := _fast_threshold_min vo;
     _fast_threshold_max := _fast_threshold_max vo;
     _initial_rotation_pyramid_level := _initial_rotation_pyramid_level vo;
     _p := _p vo; _estimator := _estimator vo |}.

Definition set_frame_count v (vo : VisualOdometry) : VisualOdometry :=
  {| _options := _options vo; _params := _params vo; _ref_frame := _ref_frame vo;
     _prev_frame := _prev_frame vo; _cur_frame := _cur_frame vo; frames := frames vo;
     _change_reference_frames := _change_reference_frames vo;
     _ref_frame_change_threshold := _ref_frame_change_threshold vo; _frame_count := v;
     _feature_window_size := _feature_window_size vo;
     _num_pyramid_levels := _num_pyramid_levels vo;
     _target_pixels_per_feature := _target_pixels_per_feature vo;
     _use_homography_initialization := _use_homography_initialization vo;
     _fast_threshold := _fast_threshold vo;
     _use_adaptive_threshold := _use_adaptive_threshold vo;
     _fast_threshold_adaptive_gain := _fast_threshold_adaptive_gain vo;
     _fast_threshold_min := _fast_threshold_min vo;
     _fast_threshold_max := _fast_threshold_max vo;
     _initial_rotation_pyramid_level := _initial_rotation_pyramid_level vo;
     _p := _p vo; _estimator := _estimator vo |}.

Definition set_fast_threshold v (vo : VisualOdometry) : VisualOdometry :=
  {| _options := _options vo; _params := _params vo; _ref_frame := _ref_frame vo;
     _prev_frame := _prev_frame vo; _cur_frame := _cur_frame vo; frames := frames vo;
     _change_reference_frames := _change_reference_frames vo;
     _ref_frame_change_threshold := _ref_frame_change_threshold vo;
     _frame_count := _frame_count vo; _feature_window_size := _feature_window_size vo;
     _num_pyramid_levels := _num_pyramid_levels vo;
     _target_pixels_per_feature := _target_pixels_per_feature vo;
     _use_homography_initialization := _use_homography_initialization vo;
     _fast_threshold := v; _use_adaptive_threshold := _use_adaptive_threshold vo;
     _fast_threshold_adaptive_gain := _fast_threshold_adaptive_gain vo;
     _fast_threshold_min := _fast_threshold_min vo;
     _fast_threshold_max := _fast_threshold_max vo;
     _initial_rotation_pyramid_level := _initial_rotation_pyramid_level vo;
     _p := _p vo; _estimator := _estimator vo |}.

Definition set_initial_rotation_pyramid_level v (vo : VisualOdometry) : VisualOdometry :=
  {| _options := _options vo; _params := _params vo; _ref_frame := _ref_frame vo;
     _prev_frame := _prev_frame vo; _cur_frame := _cur_frame vo; frames := frames vo;
     _change_reference_frames := _change_reference_frames vo;
     _ref_frame_change_threshold := _ref_frame_change_threshold vo;
     _frame_count := _frame_count vo; _feature_window_size := _feature_window_size vo;
     _num_pyramid_levels := _num_pyramid_levels vo;
     _target_pixels_per_feature := _target_pixels_per_feature vo;
     _use_homography_initialization := _use_homography_initialization vo;
     _fast_threshold := _fast_threshold vo;
     _use_adaptive_threshold := _use_adaptive_threshold vo;
     _fast_threshold_adaptive_gain := _fast_threshold_adaptive_gain vo;
     _fast_threshold_min := _fast_threshold_min vo;
     _fast_threshold_max := _fast_threshold_max vo;
     _initial_rotation_pyramid_level := v; _p := _p vo; _estimator := _estimator vo |}.

Definition set_estimator v (vo : VisualOdometry) : VisualOdometry :=
  {| _options := _options vo; _params := _params vo; _ref_frame := _ref_frame vo;
     _prev_frame := _prev_frame vo; _cur_frame := _cur_frame vo; frames := frames vo;
     _change_reference_frames := _change_reference_frames vo;
     _ref_frame_change_threshold := _ref_frame_change_threshold vo;
     _frame_count := _frame_count vo; _feature_window_size := _feature_window_size vo;
     _num_pyramid_levels := _num_pyramid_levels vo;
     _target_pixels_per_feature := _target_pixels_per_feature vo;
     _use_homography_initialization := _use_homography_initialization vo;
     _fast_threshold := _fast_threshold vo;
     _use_adaptive_threshold := _use_adaptive_threshold vo;
     _fast_threshold_adaptive_gain := _fast_threshold_adaptive_gain vo;
     _fast_threshold_min := _fast_threshold_min vo;
     _fast_threshold_max := _fast_threshold_max vo;
     _initial_rotation_pyramid_level := _initial_rotation_pyramid_level vo;
     _p := _p vo; _estimator := v |}.

(** [std::swap(_ref_frame, _cur_frame)]: the pointers change places, the
    frames stay where they are. *)
Definition swap_ref_cur (vo : VisualOdometry) : VisualOdometry :=
  {| _options := _options vo; _params := _params vo; _ref_frame := _cur_frame vo;
     _prev_frame := _prev_frame vo; _cur_frame := _ref_frame vo; frames := frames vo;
     _change_reference_frames := _change_reference_frames vo;
     _ref_frame_change_threshold := _ref_frame_change_threshold vo;
     _frame_count := _frame_count vo; _feature_window_size := _feature_window_size vo;
     _num_pyramid_levels := _num_pyramid_levels vo;
     _target_pixels_per_feature := _target_pixels_per_feature vo;
     _use_homography_initialization := _use_homography_initialization vo;
     _fast_threshold := _fast_threshold vo;
     _use_adaptive_threshold := _use_adaptive_threshold vo;
     _fast_threshold_adaptive_gain := _fast_threshold_adaptive_gain vo;
     _fast_threshold_min := _fast_threshold_min vo;
     _fast_threshold_max := _fast_threshold_max vo;
     _initial_rotation_pyramid_level := _initial_rotation_pyramid_level vo;
     _p := _p vo; _estimator := _estimator vo |}.

(** [std::swap(_prev_frame, _cur_frame)] *)
Definition swap_prev_cur (vo : VisualOdometry) : VisualOdometry :=
  {| _options := _options vo; _params := _params vo; _ref_frame := _ref_frame vo;
     _prev_frame := _cur_frame vo; _cur_frame := _prev_frame vo; frames := frames vo;
     _change_reference_frames := _change_reference_frames vo;
     _ref_frame_change_threshold := _ref_frame_change_threshold vo;
     _frame_count := _frame_count vo; _feature_window_size := _feature_window_size vo;
     _num_pyramid_levels := _num_pyramid_levels vo;
     _target_pixels_per_feature := _target_pixels_per_feature vo;
     _use_homography_initialization := _use_homography_initialization vo;
     _fast_threshold := _fast_threshold vo;
     _use_adaptive_threshold := _use_adaptive_threshold vo;
     _fast_threshold_adaptive_gain := _fast_threshold_adaptive_gain vo;
     _fast_threshold_min := _fast_threshold_min vo;
     _fast_threshold_max := _fast_threshold_max vo;
     _initial_rotation_pyramid_level := _initial_rotation_pyramid_level vo;
     _p := _p vo; _estimator := _estimator vo |}.

(** A write through a frame pointer. *)
Definition store_frame (ptr : frame_ptr) (f : OdometryFrame) (vo : VisualOdometry)
  : VisualOdometry :=
  set_frames (fun q => if decide (q = ptr) then f else frames vo q) vo.

(** ** [VisualOdometry::estimateInitialRotation]

    Returns the driver (two members are written), the rotation and the
    record of the homography run: the two frames, the pyramid level whose
    images were handed over and the further downsampling asked for.
    [None]: a division by [fx] or an [asin] of lines 164-165 raises a
    floating-point exception, and the call does not return. *)
Definition estimateInitialRotation (vo : VisualOdometry) (prev cur : frame_ptr)
  : option (VisualOdometry * Quaterniond * list Event) :=
  let vo := set_initial_rotation_pyramid_level 4 vo in
  let num_pyr_levels := getNumLevels (frames vo prev) in
  let pyrLevel := MIN (Int32.sub num_pyr_levels 1) (_initial_rotation_pyramid_level vo) in
  let ref_level := getLevel (frames vo prev) pyrLevel in
  let target_level := getLevel (frames vo cur) pyrLevel in
  let downsample := Int32.sub (_initial_rotation_pyramid_level vo) pyrLevel in
  let rotation_estimator := ihe_new in
  let rotation_estimator :=
    setTemplateImage rotation_estimator (_raw_gray ref_level)
      (_width ref_level) (_height ref_level) (_raw_gray_stride ref_level) downsample in
  let rotation_estimator :=
    setTestImage rotation_estimator (_raw_gray target_level)
      (_width target_level) (_height target_level) (_raw_gray_stride target_level)
      downsample in
  let H := m3_Identity in
  let H := track rotation_estimator H 8 in
  let scale_factor := scalar_of_int (Int32.shl 1 (_initial_rotation_pyramid_level vo)) in
  let S := m3_times_scalar m3_Identity scale_factor in
  let S := m3_set S 2 2 (scalar_of_int 1) in
  (* scale H up to the full size image *)
  let H := m3_mul (m3_mul S H) (m3_inverse S) in
  let vo := set_initial_homography_est H vo in
  roll_sine ← scalar_div (m3_get H 1 2) (cam_fx (_params vo));
  rpy0 ← scalar_asin roll_sine;
  pitch_sine ← scalar_div (m3_get H 0 2) (cam_fx (_params vo));
  pitch_asin ← scalar_asin pitch_sine;
  let rpy1 := scalar_neg pitch_asin in
  let rpy2 := scalar_neg (scalar_atan2 (m3_get H 1 0) (m3_get H 0 0)) in
  let q := _rpy_to_quat rpy0 rpy1 rpy2 in
  Some (vo, q, [EvInitialRotation prev cur pyrLevel downsample]).

(** ** The adaptive FAST threshold (the [_use_adaptive_threshold] block)

    [thresh_adjustment] is the [(int)] cast of the [double] product.  The
    division and the cast are the two steps without a result on some
    inputs. *)
Definition thresh_adjustment (vo : VisualOdometry) (width height : Z) : option Z :=
  target_num_features ← Int32.div (Int32.mul width height) (_target_pixels_per_feature vo);
  let err :=
    Int32.sub (getNumDetectedKeypoints (frames vo (_cur_frame vo))) target_num_features in
  Double.to_int (Double.mul (Double.of_int err) (_fast_threshold_adaptive_gain vo)).

Definition adaptThreshold (vo : VisualOdometry) (width height : Z) : option VisualOdometry :=
  if _use_adaptive_threshold vo then
    adj ← thresh_adjustment vo width height;
    let vo := set_fast_threshold (Int32.add (_fast_threshold vo) adj) vo in
    Some (set_fast_threshold
            (clamp (_fast_threshold vo) (_fast_threshold_min vo) (_fast_threshold_max vo)) vo)
  else Some vo.

(** [_estimator->estimateMotion(ref, target, depth_source,
    _p->initial_motion_estimate, _p->initial_motion_cov)] through the two
    frame pointers, with the record of the call and of what the estimator
    reports after it. *)
Definition call_estimateMotion (vo : VisualOdometry) (ref target : frame_ptr)
    (depth_source : DepthSource) : VisualOdometry * Event :=
  let init := initial_motion_estimate (_p vo) in
  let '(e, ref_frame', target_frame') :=
    estimateMotion (_estimator vo) (frames vo ref) (frames vo target) depth_source
      init (initial_motion_cov (_p vo)) in
  let vo := set_estimator e vo in
  let vo := store_frame ref ref_frame' vo in
  let vo := store_frame target target_frame' vo in
  (vo, EvEstimateMotion ref target init (isMotionEstimateValid e) (getNumInliers e)).

(** ** [VisualOdometry::processFrame], block by block *)

(** Lines 178-191: the frame pointers change places, the motion estimate
    and the flag are reset. *)
Definition rotateFrames (vo : VisualOdometry) : VisualOdometry :=
  let vo :=
    if _change_reference_frames vo then
      (* current frame becomes the reference frame *)
      set_ref_to_prev_frame iso_Identity (swap_ref_cur vo)
    else
      (* reference frame doesn't change, current frame is now previous *)
      swap_prev_cur vo in
  (* initialize a null motion estimate *)
  let vo := set_motion_estimate iso_Identity vo in
  set_change_reference_frames false vo.

(** Line 194: detect features in new frame. *)
Definition detectFeatures (vo : VisualOdometry) (gray : Image) (depth_source : DepthSource)
  : VisualOdometry :=
  store_frame (_cur_frame vo)
    (prepareFrame (frames vo (_cur_frame vo)) gray (_fast_threshold vo) depth_source) vo.

(** Lines 221-237: the initial rotation, from the homography of the frame
    before and the current one or the identity quaternion, then the
    initial motion estimate and its covariance. *)
Definition initialMotionEstimate (vo : VisualOdometry) (changed_reference_frames : bool)
  : option (VisualOdometry * Quaterniond * list Event) :=
  '(vo, init_rotation_est, evs) ←
    (if _use_homography_initialization vo then
       if changed_reference_frames then
         estimateInitialRotation vo (_ref_frame vo) (_cur_frame vo)
       else
         estimateInitialRotation vo (_prev_frame vo) (_cur_frame vo)
     else Some (vo, quat_wxyz 1 0 0 0, []) (* identity quaternion *));
  let vo := set_initial_motion_estimate (iso_inverse (ref_to_prev_frame (_p vo))) vo in
  let vo :=
    set_initial_motion_estimate
      (iso_rotate (initial_motion_estimate (_p vo)) init_rotation_est) vo in
  let vo := set_initial_motion_cov (mx_setIdentity (initial_motion_cov (_p vo))) vo in
  Some (vo, init_rotation_est, evs).

(** Lines 247-252: the estimate against the reference frame is taken. *)
Definition acceptReferenceEstimate (vo : VisualOdometry) : VisualOdometry :=
  let to_reference := getMotionEstimate (_estimator vo) in
  let vo := set_motion_estimate (iso_mul (ref_to_prev_frame (_p vo)) to_reference) vo in
  let to_reference_cov := getMotionEstimateCov (_estimator vo) in
  let vo := set_motion_estimate_covariance to_reference_cov vo in
  let vo := set_ref_to_prev_frame (iso_inverse to_reference) vo in
  set_pose (iso_mul (pose (_p vo)) (motion_estimate (_p vo))) vo.

(** Lines 268-272: the estimate against the previous frame is taken. *)
Definition acceptPreviousEstimate (vo : VisualOdometry) : VisualOdometry :=
  let vo := set_motion_estimate (getMotionEstimate (_estimator vo)) vo in
  let vo := set_motion_estimate_covariance (getMotionEstimateCov (_estimator vo)) vo in
  let vo := set_pose (iso_mul (pose (_p vo)) (motion_estimate (_p vo))) vo in
  set_change_reference_frames true vo.

(** Lines 254-273: if the motion estimation failed, then try estimating
    against the previous frame if it's not the reference frame. *)
Definition retryAgainstPrevious (vo : VisualOdometry) (init_rotation_est : Quaterniond)
    (depth_source : DepthSource) : VisualOdometry * Event :=
  let vo := set_initial_motion_estimate iso_Identity vo in
  let vo :=
    set_initial_motion_estimate
      (iso_rotate (initial_motion_estimate (_p vo)) init_rotation_est) vo in
  let vo := set_initial_motion_cov (mx_setIdentity (initial_motion_cov (_p vo))) vo in
  let '(vo, ev) := call_estimateMotion vo (_prev_frame vo) (_cur_frame vo) depth_source in
  let vo := if isMotionEstimateValid (_estimator vo) then acceptPreviousEstimate vo else vo in
  (vo, ev).

(** Lines 277-281: switch reference frames? *)
Definition switchReferenceFrames (vo : VisualOdometry) : VisualOdometry :=
  if negb (isMotionEstimateValid (_estimator vo))
     || (getNumInliers (_estimator vo) <? _ref_frame_change_threshold vo)
  then set_change_reference_frames true vo
  else vo.

(** Lines 219-281: the temporal matching of a frame that is not the
    first. *)
Definition matchFrames (vo : VisualOdometry) (changed_reference_frames : bool)
    (depth_source : DepthSource) : option (VisualOdometry * list Event) :=
  '(vo, init_rotation_est, evs_rotation) ←
    initialMotionEstimate vo changed_reference_frames;
  let '(vo, ev_reference) :=
    call_estimateMotion vo (_ref_frame vo) (_cur_frame vo) depth_source in
  let '(vo, evs_previous) :=
    if isMotionEstimateValid (_estimator vo) then (acceptReferenceEstimate vo, [])
    else if negb changed_reference_frames then
      let '(vo, ev_previous) := retryAgainstPrevious vo init_rotation_est depth_source in
      (vo, [ev_previous])
    else (vo, []) in
  Some (switchReferenceFrames vo, evs_rotation ++ [ev_reference] ++ evs_previous).

(** The whole function.  [None]: the call does not return (see
    [thresh_adjustment] and [estimateInitialRotation]). *)
Definition processFrame (vo : VisualOdometry) (gray : Image) (depth_source : DepthSource)
  : option (VisualOdometry * list Event) :=
  let changed_reference_frames := _change_reference_frames vo in
  let vo := rotateFrames vo in
  let ev_prepare := EvPrepareFrame (_cur_frame vo) (_fast_threshold vo) in
  let vo := detectFeatures vo gray depth_source in
  let width := cam_width (_params vo) in
  let height := cam_height (_params vo) in
  vo ← adaptThreshold vo width height;
  let vo := set_frame_count (Int32.add (_frame_count vo) 1) vo in
  (* Only do the temporal matching if we have feature descriptors from the
     previous frame. *)
  if _frame_count vo <? 2 then
    Some (set_change_reference_frames true vo, [ev_prepare])
  else
    '(vo, evs) ← matchFrames vo changed_reference_frames depth_source;
    Some (vo, ev_prepare :: evs).

(** A sequence of frames, one [processFrame] after the other: the driver
    and the trace after each frame. *)
Fixpoint processFrames (vo : VisualOdometry) (inputs : list (Image * DepthSource))
  : option (list (VisualOdometry * list Event)) :=
  match inputs with
  | [] => Some []
  | (gray, depth_source) :: rest =>
      r ← processFrame vo gray depth_source;
      later ← processFrames r.1 rest;
      Some (r :: later)
  end.

(** ** [VisualOdometry::VisualOdometry]

    The result carries the keys [validateOptions] warned about.  [None]:
    a reader found neither a valid supplied value nor a valid default.
    The three frames are [new OdometryFrame(_params, options)] each.  The
    members the constructor does not assign hold what default construction
    leaves ([iso_default], [mx_default]); for the two that
    [estimateInitialRotation] assigns before anything reads them, level 0
    and the identity matrix stand in. *)
Definition VisualOdometry_new `{OptionParsers}
    (params : CameraIntrinsicsParameters) (options : VisualOdometryOptions)
  : option (VisualOdometry * list string) :=
  (* check for any unrecognized options *)
  let defaults := getDefaultOptions in
  let warnings := validateOptions options defaults in
  (* extract options *)
  feature_window_size ← optionsGetIntOrFromDefault options "feature-window-size" defaults;
  num_pyramid_levels ← optionsGetIntOrFromDefault options "max-pyramid-level" defaults;
  target_pixels_per_feature ←
    optionsGetIntOrFromDefault options "target-pixels-per-feature" defaults;
  ref_frame_change_threshold ←
    optionsGetIntOrFromDefault options "ref-frame-change-threshold" defaults;
  use_homography_initialization ←
    optionsGetBoolOrFromDefault options "use-homography-initialization" defaults;
  fast_threshold ← optionsGetIntOrFromDefault options "fast-threshold" defaults;
  use_adaptive_threshold ←
    optionsGetBoolOrFromDefault options "use-adaptive-threshold" defaults;
  fast_threshold_adaptive_gain ←
    optionsGetDoubleOrFromDefault options "fast-threshold-adaptive-gain" defaults;
  Some
    ({| _options := options;
        _params := params;
        _ref_frame := FrameA;
        _prev_frame := FrameB;
        _cur_frame := FrameC;
        frames := fun _ => OdometryFrame_new params options;
        _change_reference_frames := false;
        _ref_frame_change_threshold := ref_frame_change_threshold;
        _frame_count := 0;
        _feature_window_size := feature_window_size;
        _num_pyramid_levels := num_pyramid_levels;
        _target_pixels_per_feature := target_pixels_per_feature;
        _use_homography_initialization := use_homography_initialization;
        _fast_threshold := fast_threshold;
        _use_adaptive_threshold := use_adaptive_threshold;
        _fast_threshold_adaptive_gain := fast_threshold_adaptive_gain;
        _fast_threshold_min := 5;
        _fast_threshold_max := 70;
        _initial_rotation_pyramid_level := 0;
        _p := {| motion_estimate := iso_Identity;
                 motion_estimate_covariance := mx_setIdentity_sized 6 6;
                 pose := iso_Identity;
                 ref_to_prev_frame := iso_Identity;
                 initial_motion_estimate := iso_default;
                 initial_motion_cov := mx_default;
                 initial_homography_est := m3_Identity |};
        _estimator := MotionEstimator_new params options |},
     warnings).

End Driver.

(** ** Reading a trace *)

Section Traces.

Context {GEO : Geometry}.

Definition is_estimate (ev : Event) : bool :=
  match ev with EvEstimateMotion _ _ _ _ _ => true | _ => false end.

Definition is_rotation (ev : Event) : bool :=
  match ev with EvInitialRotation _ _ _ _ => true | _ => false end.

(** The motion estimations of a frame, in the order they were run. *)
Definition estimates (tr : list Event) : list Event := List.filter is_estimate tr.

(** The homography runs of a frame. *)
Definition rotations (tr : list Event) : list Event := List.filter is_rotation tr.

End Traces.

Section Frames.

Context {GEO : Geometry} {FRM : FrameAPI} {EST : EstimatorAPI} {HOM : HomographyAPI}.

(** NORMAL: one estimation was run, it succeeded, and the estimator counts
    at least [_ref_frame_change_threshold] inliers. *)
Definition normal_frame (r : VisualOdometry * list Event) : Prop :=
  exists ref target init n,
    estimates r.2 = [EvEstimateMotion ref target init true n] /\
    _ref_frame_change_threshold r.1 <= n.

(** The driver after the last of a sequence of frames. *)
Definition final_state (vo : VisualOdometry) (results : list (VisualOdometry * list Event))
  : VisualOdometry :=
  match last results with
  | Some r => r.1
  | None => vo
  end.

(** The three frame pointers are three different frames. *)
Definition distinct_frames (vo : VisualOdometry) : Prop :=
  _ref_frame vo <> _prev_frame vo /\ _ref_frame vo <> _cur_frame vo /\
  _prev_frame vo <> _cur_frame vo.

(** The members the temporal matching leaves as they are. *)
Definition controls (vo : VisualOdometry) :=
  (_params vo, _ref_frame vo, _prev_frame vo, _cur_frame vo, _frame_count vo,
   _ref_frame_change_threshold vo, _target_pixels_per_feature vo,
   _use_homography_initialization vo, _fast_threshold vo, _use_adaptive_threshold vo,
   _fast_threshold_adaptive_gain vo, _fast_threshold_min vo, _fast_threshold_max vo).

(** The members [processFrame] never assigns. *)
Definition settings (vo : VisualOdometry) :=
  (_params vo, _ref_frame_change_threshold vo, _target_pixels_per_feature vo,
   _use_homography_initialization vo, _use_adaptive_threshold vo,
   _fast_threshold_adaptive_gain vo, _fast_threshold_min vo, _fast_threshold_max vo).

End Frames.

Section Paths.

Context {GEO : Geometry} {FRM : FrameAPI} {EST : EstimatorAPI} {HOM : HomographyAPI}.

(** [_p->ref_to_prev_frame] once the frame pointers have changed places:
    the identity when the reference frame has just been replaced. *)
Definition ref_to_prev_at_start (vo : VisualOdometry) : Isometry3d :=
  if _change_reference_frames vo then iso_Identity else ref_to_prev_frame (_p vo).

(** The rotation [estimateInitialRotation] reads off a homography [H]
    (lines 164-171), where the two quotients and their [asin] have a
    value. *)
Definition rotation_from_homography (vo : VisualOdometry) (H : Matrix3f)
  : option Quaterniond :=
  roll_sine ← scalar_div (m3_get H 1 2) (cam_fx (_params vo));
  roll ← scalar_asin roll_sine;
  pitch_sine ← scalar_div (m3_get H 0 2) (cam_fx (_params vo));
  pitch_asin ← scalar_asin pitch_sine;
  Some (_rpy_to_quat roll (scalar_neg pitch_asin)
          (scalar_neg (scalar_atan2 (m3_get H 1 0) (m3_get H 0 0)))).

(** The homography [track] answers for a template frame and a test frame
    (lines 133-152): the images of level [min (N - 1, 4)] of both, to be
    downsampled to level 4, from the identity and in 8 iterations at
    most. *)
Definition tracked_homography (template test : OdometryFrame) : Matrix3f :=
  let level := MIN (Int32.sub (getNumLevels template) 1) 4 in
  let ref_level := getLevel template level in
  let target_level := getLevel test level in
  track
    (setTestImage
       (setTemplateImage ihe_new (_raw_gray ref_level) (_width ref_level)
          (_height ref_level) (_raw_gray_stride ref_level) (Int32.sub 4 level))
       (_raw_gray target_level) (_width target_level) (_height target_level)
       (_raw_gray_stride target_level) (Int32.sub 4 level))
    m3_Identity 8.

(** The matrix [S] that scales a homography of pyramid level 4 up to the
    full size image: [16] on the diagonal, [S(2, 2) = 1]. *)
Definition full_size_scale : Matrix3f :=
  m3_set (m3_times_scalar m3_Identity (scalar_of_int 16)) 2 2 (scalar_of_int 1).

(** The five ways through [processFrame], from the driver [vo] before the
    call to the driver [vo'] after it: the initial rotation [q] and the
    motion estimations that were run. *)
Inductive frame_path (vo vo' : VisualOdometry) (q : Quaterniond) : list Event -> Prop :=
| path_bootstrap :
    _frame_count vo' < 2 ->
    _estimator vo' = _estimator vo ->
    pose (_p vo') = pose (_p vo) ->
    motion_estimate (_p vo') = iso_Identity ->
    ref_to_prev_frame (_p vo') = ref_to_prev_at_start vo ->
    _change_reference_frames vo' = true ->
    frame_path vo vo' q []
| path_reference :
    2 <= _frame_count vo' ->
    isMotionEstimateValid (_estimator vo') = true ->
    motion_estimate (_p vo') =
      iso_mul (ref_to_prev_at_start vo) (getMotionEstimate (_estimator vo')) ->
    ref_to_prev_frame (_p vo') = iso_inverse (getMotionEstimate (_estimator vo')) ->
    pose (_p vo') = iso_mul (pose (_p vo)) (motion_estimate (_p vo')) ->
    _change_reference_frames vo' =
      (getNumInliers (_estimator vo') <? _ref_frame_change_threshold vo') ->
    frame_path vo vo' q
      [EvEstimateMotion (_ref_frame vo') (_cur_frame vo')
         (iso_rotate (iso_inverse (ref_to_prev_at_start vo)) q)
         true (getNumInliers (_estimator vo'))]
| path_reanchor n :
    2 <= _frame_count vo' ->
    _change_reference_frames vo = true ->
    isMotionEstimateValid (_estimator vo') = false ->
    pose (_p vo') = pose (_p vo) ->
    motion_estimate (_p vo') = iso_Identity ->
    ref_to_prev_frame (_p vo') = iso_Identity ->
    _change_reference_frames vo' = true ->
    frame_path vo vo' q
      [EvEstimateMotion (_ref_frame vo') (_cur_frame vo')
         (iso_rotate (iso_inverse iso_Identity) q) false n]
| path_fallback n :
    2 <= _frame_count vo' ->
    _change_reference_frames vo = false ->
    isMotionEstimateValid (_estimator vo') = true ->
    motion_estimate (_p vo') = getMotionEstimate (_estimator vo') ->
    ref_to_prev_frame (_p vo') = ref_to_prev_frame (_p vo) ->
    pose (_p vo') = iso_mul (pose (_p vo)) (motion_estimate (_p vo')) ->
    _change_reference_frames vo' = true ->
    frame_path vo vo' q
      [EvEstimateMotion (_ref_frame vo') (_cur_frame vo')
         (iso_rotate (iso_inverse (ref_to_prev_frame (_p vo))) q) false n;
       EvEstimateMotion (_prev_frame vo') (_cur_frame vo')
         (iso_rotate iso_Identity q) true (getNumInliers (_estimator vo'))]
| path_lost n m :
    2 <= _frame_count vo' ->
    _change_reference_frames vo = false ->
    isMotionEstimateValid (_estimator vo') = false ->
    pose (_p vo') = pose (_p vo) ->
    motion_estimate (_p vo') = iso_Identity ->
    ref_to_prev_frame (_p vo') = ref_to_prev_frame (_p vo) ->
    _change_reference_frames vo' = true ->
    frame_path vo vo' q
      [EvEstimateMotion (_ref_frame vo') (_cur_frame vo')
         (iso_rotate (iso_inverse (ref_to_prev_frame (_p vo))) q) false n;
       EvEstimateMotion (_prev_frame vo') (_cur_frame vo')
         (iso_rotate iso_Identity q) false m].

(** What a frame that is not the first does for its initial rotation: one
    homography run between the frame before ([_cur_frame vo], whose content
    is read from [store], the frames as detection leaves them) and the new
    current frame, or none and the identity quaternion. *)
Definition rotation_path (vo vo' : VisualOdometry) (store : frame_ptr -> OdometryFrame)
    (q : Quaterniond) (rot : list Event) : Prop :=
  if _use_homography_initialization vo then
    let level :=
      MIN (Int32.sub (getNumLevels (store (_cur_frame vo))) 1) 4 in
    rot = [EvInitialRotation (_cur_frame vo) (_cur_frame vo') level (Int32.sub 4 level)] /\
    rotation_from_homography vo (initial_homography_est (_p vo')) = Some q /\
    initial_homography_est (_p vo') =
      m3_mul
        (m3_mul full_size_scale
           (tracked_homography (store (_cur_frame vo)) (store (_cur_frame vo'))))
        (m3_inverse full_size_scale)
  else
    rot = [] /\ q = quat_wxyz 1 0 0 0.

End Paths.

(** ** The rules of the specification, in its words *)

(** "each frame computes [target = (W*H) / target_pixels_per_feature],
    [err = detected - target], [threshold += round(err * gain)], clamped
    to [[5, 70]]" *)
Definition spec_threshold_update (W H target_pixels_per_feature detected : Z)
    (gain : double) (threshold : Z) : option Z :=
  target ← Int32.div (Int32.mul W H) target_pixels_per_feature;
  let err := Int32.sub detected target in
  adjustment ← Double.round_to_int (Double.mul (Double.of_int err) gain);
  Some (clamp (Int32.add threshold adjustment) 5 70).

(** "the coarsest-but-one level": of levels [0 .. num_levels - 1], the one
    before the last. *)
Definition coarsest_but_one (num_levels : Z) : Z := num_levels - 2.

(** ** A concrete world to run the driver in

    Test doubles for the collaborators, used where a property is evaluated
    on explicit frames.  The camera only translates, by whole units, and
    the homography tracker always answers the identity: on these values
    the Eigen arithmetic is exact, a transform is its translation vector
    and the extracted rotation is the identity.  An image states how many
    keypoints detection finds in it, how many pyramid levels its frame has
    and what the motion estimator will report for it against a given
    reference image. *)

Module Scene.

Record Outcome := {
  out_valid : bool;
  out_inliers : Z;
  out_motion : Z * Z * Z
}.

Record Picture := {
  pic_id : Z;
  pic_detected : Z;
  pic_levels : Z;
  pic_outcome : Z -> Outcome
}.

Record Camera := { cam_w : Z; cam_h : Z; cam_f : Z }.

Definition failure : Outcome :=
  {| out_valid := false; out_inliers := 0; out_motion := (0, 0, 0) |}.

Definition success (inliers : Z) (t : Z * Z * Z) : Outcome :=
  {| out_valid := true; out_inliers := inliers; out_motion := t |}.

Definition blank : Picture :=
  {| pic_id := 0; pic_detected := 0; pic_levels := 3; pic_outcome := fun _ => failure |}.

Definition translate (a b : Z * Z * Z) : Z * Z * Z :=
  (a.1.1 + b.1.1, a.1.2 + b.1.2, a.2 + b.2).

Definition back (a : Z * Z * Z) : Z * Z * Z := (- a.1.1, - a.1.2, - a.2).

(** The scalars of the scene are whole numbers: a quotient has a value for
    a divisor other than 0, and [asin] at 0, the one angle of the scene. *)
Definition quotient (a b : Z) : option Z :=
  if b =? 0 then None else Some (Z.quot a b).

Definition arcsine (x : Z) : option Z :=
  if x =? 0 then Some 0 else None.

#[global] Instance geometry : Geometry := {|
  Scalar := Z;
  scalar_of_int := fun z => z;
  scalar_div := quotient;
  scalar_neg := Z.opp;
  scalar_asin := arcsine;
  scalar_atan2 := fun _ _ => 0;
  Matrix3f := unit;
  m3_Identity := tt;
  m3_times_scalar := fun _ _ => tt;
  m3_set := fun _ _ _ _ => tt;
  m3_get := fun _ i j => if decide (i = j) then 1 else 0;
  m3_mul := fun _ _ => tt;
  m3_inverse := fun _ => tt;
  Quaterniond := unit;
  quat_wxyz := fun _ _ _ _ => tt;
  _rpy_to_quat := fun _ _ _ => tt;
  Isometry3d := Z * Z * Z;
  iso_default := (0, 0, 0);
  iso_Identity := (0, 0, 0);
  iso_mul := translate;
  iso_inverse := back;
  iso_rotate := fun t _ => t;
  MatrixXd := unit;
  mx_default := tt;
  mx_setIdentity := fun _ => tt;
  mx_setIdentity_sized := fun _ _ => tt
|}.

(** Every level of a picture is an empty 16 x 16 level. *)
Definition level_16 : PyramidLevel :=
  Eval vm_compute in
    PyramidLevel_new (fun w _ => w) (fun _ _ => 0) (fun _ _ => 0) 16 16 0 2.

Definition level_of (p : Picture) (k : Z) : PyramidLevel := level_16.

#[global] Instance frame_api : FrameAPI := {|
  CameraIntrinsicsParameters := Camera;
  cam_width := cam_w;
  cam_height := cam_h;
  cam_fx := cam_f;
  Image := Picture;
  DepthSource := unit;
  OdometryFrame := Picture;
  OdometryFrame_new := fun _ _ => blank;
  prepareFrame := fun _ gray _ _ => gray;
  getNumDetectedKeypoints := pic_detected;
  getNumLevels := pic_levels;
  getLevel := level_of
|}.

#[global] Instance homography_api : HomographyAPI := {|
  InitialHomographyEstimator := unit;
  ihe_new := tt;
  setTemplateImage := fun _ _ _ _ _ _ => tt;
  setTestImage := fun _ _ _ _ _ _ => tt;
  track := fun _ H _ => H
|}.

#[global] Instance estimator_api : EstimatorAPI := {|
  MotionEstimator := Outcome;
  MotionEstimator_new := fun _ _ => failure;
  estimateMotion := fun _ ref target _ _ _ => (pic_outcome target (pic_id ref), ref, target);
  isMotionEstimateValid := out_valid;
  getMotionEstimate := out_motion;
  getMotionEstimateCov := fun _ => tt;
  getNumInliers := out_inliers
|}.

(** Decimal integers, ["true"] and ["false"], and the one fraction found
    among the defaults the driver reads. *)
Fixpoint digits (s : string) (acc : Z) : option Z :=
  match s with
  | EmptyString => Some acc
  | String c rest =>
      let n := Z.of_N (Ascii.N_of_ascii c) in
      if (48 <=? n) && (n <=? 57) then digits rest (10 * acc + (n - 48)) else None
  end.

Definition decimal (s : string) : option Z :=
  match s with
  | EmptyString => None
  | String (Ascii.Ascii true false true true false true false false) (String c rest) => Z.opp <$> digits (String c rest) 0
  | _ => digits s 0
  end.

Definition boolean (s : string) : option bool :=
  if String.eqb s "true" then Some true
  else if String.eqb s "false" then Some false
  else None.

(** The binary64 closest to 0.005: 5 / 1000, correctly rounded. *)
Definition gain_0_005 : double :=
  Eval vm_compute in Double.div (Double.of_int 5) (Double.of_int 1000).

Definition fraction (s : string) : option double :=
  if String.eqb s "0.005000" then Some gain_0_005 else None.

#[global] Instance parsers : OptionParsers := {|
  parseInt := decimal;
  parseBool := boolean;
  parseDouble := fraction
|}.

Definition camera : Camera := {| cam_w := 640; cam_h := 480; cam_f := 525 |}.

(** A driver as the constructor leaves it for the default options. *)
Definition fresh : VisualOdometry :=
  {| _options := ∅; _params := camera; _ref_frame := FrameA; _prev_frame := FrameB;
         _cur_frame := FrameC; frames := fun _ => blank;
         _change_reference_frames := false; _ref_frame_change_threshold := 150;
         _frame_count := 0; _feature_window_size := 9; _num_pyramid_levels := 3;
         _target_pixels_per_feature := 250; _use_homography_initialization := true;
         _fast_threshold := 20; _use_adaptive_threshold := true;
         _fast_threshold_adaptive_gain := gain_0_005; _fast_threshold_min := 5;
         _fast_threshold_max := 70; _initial_rotation_pyramid_level := 0;
         _p := {| motion_estimate := (0, 0, 0); motion_estimate_covariance := tt;
                  pose := (0, 0, 0); ref_to_prev_frame := (0, 0, 0);
                  initial_motion_estimate := (0, 0, 0); initial_motion_cov := tt;
                  initial_homography_est := tt |};
         _estimator := failure |}.

(** Options with one valid entry, one unknown key and one value that is
    not a number. *)
Definition some_options : VisualOdometryOptions :=
  <["fast-threshold" := "7"]> (<["verbose" := "1"]> (<["max-pyramid-level" := "x"]> ∅)).

(** A picture with three pyramid levels. *)
Definition picture (id detected : Z) (outcome : Z -> Outcome) : Picture :=
  {| pic_id := id; pic_detected := detected; pic_levels := 3; pic_outcome := outcome |}.

(** What the estimator reports for a picture matched against picture
    [ref]: [found] when [ref] is [id], a failure otherwise. *)
Definition against (id : Z) (found : Outcome) (ref : Z) : Outcome :=
  if ref =? id then found else failure.

(** The frames of a short walk.  The first frame starts the engine; the
    second matches the first with 200 inliers; the third matches the first
    with 50 inliers only; the fourth matches nothing; the fifth matches
    the fourth; the sixth fails against the reference (the fourth) and
    matches the frame before it. *)
Definition frame1 : Picture := picture 1 1228 (fun _ => failure).
Definition frame2 : Picture := picture 2 1378 (against 1 (success 200 (1, 0, 0))).
Definition frame3 : Picture := picture 3 1500 (against 1 (success 50 (3, 0, 0))).
Definition frame4 : Picture := picture 4 1000 (fun _ => failure).
Definition frame5 : Picture := picture 5 1000 (against 4 (success 170 (0, 0, 1))).
Definition frame6 : Picture := picture 6 1000 (against 5 (success 170 (0, 2, 0))).

(** A second frame that matches the first, with 160 inliers. *)
Definition frame2b : Picture := picture 7 1200 (against 1 (success 160 (2, 0, 0))).

(** The driver after the given frames (the constructed driver if a call
    does not return). *)
Definition after (pictures : list Picture) : VisualOdometry :=
  match processFrames fresh ((fun p => (p, tt)) <$> pictures) with
  | Some results => final_state fresh results
  | None => fresh
  end.

(** One more frame: the driver and the trace ([vo] and no trace if the
    call does not return). *)
Definition step (vo : VisualOdometry) (p : Picture) : VisualOdometry * list Event :=
  match processFrame vo p tt with
  | Some r => r
  | None => (vo, [])
  end.

(** A driver constructed with the adaptive threshold and the homography
    initialization switched off. *)
Definition plain_options : VisualOdometryOptions :=
  <["use-adaptive-threshold" := "false"]>
    (<["use-homography-initialization" := "false"]> ∅).

Definition plain : VisualOdometry :=
  match VisualOdometry_new camera plain_options with
  | Some r => r.1
  | None => fresh
  end.

(** A driver constructed with [target-pixels-per-feature] 0. *)
Definition zero_target_options : VisualOdometryOptions :=
  <["target-pixels-per-feature" := "0"]> ∅.

Definition zero_target : VisualOdometry :=
  match VisualOdometry_new camera zero_target_options with
  | Some r => r.1
  | None => fresh
  end.

(** A driver with a fixed threshold for a camera whose focal length is
    given as 0. *)
Definition unfocused : Camera := {| cam_w := 640; cam_h := 480; cam_f := 0 |}.

Definition fixed_threshold_options : VisualOdometryOptions :=
  <["use-adaptive-threshold" := "false"]> ∅.

Definition unfocused_driver : VisualOdometry :=
  match VisualOdometry_new unfocused fixed_threshold_options with
  | Some r => r.1
  | None => fresh
  end.

End Scene.


(** * Properties *)

(** ** Arithmetic *)

Lemma wrap_in_range (z : Z) :
  Int32.min_signed <= z <= Int32.max_signed -> Int32.wrap z = z.
Proof.
  unfold Int32.wrap, Int32.min_signed, Int32.max_signed. intros Hz.
  rewrite Z.mod_small; lia.
Qed.

Lemma clamp_bounds (val minval maxval : Z) :
  minval <= maxval -> minval <= clamp val minval maxval <= maxval.
Proof.
  intros Hle. unfold clamp.
  destruct (Z.gtb_spec val maxval); [lia|].
  destruct (Z.ltb_spec val minval); lia.
Qed.

(** The cast never rounds up in magnitude: the integer part [z] of a
    finite [x = (-1)^s * m * 2^e] with a negative [e] satisfies
    [|z| * 2^-e <= m < (|z| + 1) * 2^-e]. *)
Lemma trunc_toward_zero (s : bool) (m p : positive) (z : Z) :
  Double.trunc (S754_finite s m (Zneg p)) = Some z ->
  z = cond_Zopp s (Z.abs z) /\
  Z.abs z * 2 ^ Zpos p <= Zpos m < (Z.abs z + 1) * 2 ^ Zpos p.
Proof.
  cbn [Double.trunc]. intros [= <-].
  assert (Hpow : 0 < 2 ^ Zpos p) by (apply Z.pow_pos_nonneg; lia).
  assert (Hq : 0 <= Zpos m / 2 ^ Zpos p) by (apply Z.div_pos; lia).
  pose proof (Z.mul_div_le (Zpos m) _ Hpow) as Hlo.
  pose proof (Z.mul_succ_div_gt (Zpos m) _ Hpow) as Hhi.
  destruct s; cbn [cond_Zopp].
  - rewrite Z.quot_opp_l by lia. rewrite Z.quot_div_nonneg by lia.
    rewrite Z.abs_opp, Z.abs_eq by lia. split; [reflexivity | lia].
  - rewrite Z.quot_div_nonneg by lia.
    rewrite Z.abs_eq by lia. split; [reflexivity | lia].
Qed.

(** ** Keypoint bounds of a pyramid level *)

Lemma legal_coordinate_bounds (level : PyramidLevel) (kp : KeyPoint) :
  isLegalKeypointCoordinate level kp = true ->
  (inject_Z (_keypoint_min_x level) <= kp_u kp)%Q /\
  (kp_u kp <= inject_Z (_keypoint_max_x level))%Q /\
  (inject_Z (_keypoint_min_y level) <= kp_v kp)%Q /\
  (kp_v kp <= inject_Z (_keypoint_max_y level))%Q.
Proof.
  unfold isLegalKeypointCoordinate.
  rewrite !andb_true_iff, !Qle_bool_iff. tauto.
Qed.



(** ** Options *)

Lemma validateOptions_spec (options defaults : VisualOdometryOptions) (key : string) :
  key ∈ validateOptions options defaults <->
  is_Some (options !! key) /\ defaults !! key = None.
Proof.
  unfold validateOptions. rewrite list_elem_of_fmap. split.
  - intros [[k v] [-> Hin]]. apply elem_of_map_to_list in Hin.
    apply map_lookup_filter_Some in Hin as [Hk Hnone]. eauto.
  - intros [[v Hv] Hnone]. exists (key, v). split; [reflexivity|].
    apply elem_of_map_to_list. apply map_lookup_filter_Some. auto.
Qed.

Lemma validateOptions_NoDup (options defaults : VisualOdometryOptions) :
  NoDup (validateOptions options defaults).
Proof. unfold validateOptions. apply NoDup_fst_map_to_list. Qed.

Lemma optionsGet_default {A} (parse : string -> option A)
    (options defaults : VisualOdometryOptions) (name text : string) (v : A) :
  defaults !! name = Some text -> parse text = Some v ->
  exists r, optionsGetOrFromDefault parse options name defaults = Some r /\
            (options !! name ≫= parse = None -> r = v) /\
            (forall u, options !! name ≫= parse = Some u -> r = u).
Proof.
  intros Hd Hp. unfold optionsGetOrFromDefault.
  destruct (options !! name ≫= parse) as [u|].
  - exists u. repeat split; [discriminate | congruence].
  - rewrite Hd. cbn. rewrite Hp. exists v. repeat split; [discriminate].
Qed.

Section Construction.

Context {GEO : Geometry} {FRM : FrameAPI} {EST : EstimatorAPI} {OPT : OptionParsers}.

(** C8.  Whatever the options map: [validateOptions] warns about exactly
    the keys that are not default option keys, once each; construction
    completes; and every option the driver reads that is not supplied with
    a valid value has its default value.  (The parsers accept the default
    texts.) *)
Theorem unknown_options_warned_defaults_used
    (params : CameraIntrinsicsParameters) (options : VisualOdometryOptions)
    (gain : double) :
  parseInt "9" = Some 9 -> parseInt "3" = Some 3 -> parseInt "250" = Some 250 ->
  parseInt "150" = Some 150 -> parseInt "20" = Some 20 ->
  parseBool "true" = Some true -> parseDouble toString_0_005 = Some gain ->
  exists vo warnings,
    VisualOdometry_new params options = Some (vo, warnings) /\
    NoDup warnings /\
    (forall key, key ∈ warnings <->
                 is_Some (options !! key) /\ getDefaultOptions !! key = None) /\
    (options !! "feature-window-size" ≫= parseInt = None -> _feature_window_size vo = 9) /\
    (options !! "max-pyramid-level" ≫= parseInt = None -> _num_pyramid_levels vo = 3) /\
    (options !! "target-pixels-per-feature" ≫= parseInt = None ->
     _target_pixels_per_feature vo = 250) /\
    (options !! "ref-frame-change-threshold" ≫= parseInt = None ->
     _ref_frame_change_threshold vo = 150) /\
    (options !! "use-homography-initialization" ≫= parseBool = None ->
     _use_homography_initialization vo = true) /\
    (options !! "fast-threshold" ≫= parseInt = None -> _fast_threshold vo = 20) /\
    (options !! "use-adaptive-threshold" ≫= parseBool = None ->
     _use_adaptive_threshold vo = true) /\
    (options !! "fast-threshold-adaptive-gain" ≫= parseDouble = None ->
     _fast_threshold_adaptive_gain vo = gain).
Proof.
  intros H9 H3 H250 H150 H20 Htrue Hgain.
  unfold VisualOdometry_new, optionsGetIntOrFromDefault, optionsGetBoolOrFromDefault,
    optionsGetDoubleOrFromDefault.
  destruct (optionsGet_default parseInt options getDefaultOptions
              "feature-window-size" "9" 9 eq_refl H9) as (fws & -> & Hfws & _).
  destruct (optionsGet_default parseInt options getDefaultOptions
              "max-pyramid-level" "3" 3 eq_refl H3) as (lv & -> & Hlv & _).
  destruct (optionsGet_default parseInt options getDefaultOptions
              "target-pixels-per-feature" "250" 250 eq_refl H250) as (tp & -> & Htp & _).
  destruct (optionsGet_default parseInt options getDefaultOptions
              "ref-frame-change-threshold" "150" 150 eq_refl H150) as (rf & -> & Hrf & _).
  destruct (optionsGet_default parseBool options getDefaultOptions
              "use-homography-initialization" "true" true eq_refl Htrue)
    as (uh & -> & Huh & _).
  destruct (optionsGet_default parseInt options getDefaultOptions
              "fast-threshold" "20" 20 eq_refl H20) as (ft & -> & Hft & _).
  destruct (optionsGet_default parseBool options getDefaultOptions
              "use-adaptive-threshold" "true" true eq_refl Htrue) as (ua & -> & Hua & _).
  destruct (optionsGet_default parseDouble options getDefaultOptions
              "fast-threshold-adaptive-gain" toString_0_005 gain eq_refl Hgain)
    as (ga & -> & Hga & _).
  cbn [mbind option_bind].
  eexists _, _. split; [reflexivity|].
  split; [apply validateOptions_NoDup|].
  split; [apply validateOptions_spec|].
  cbn. tauto.
Qed.

End Construction.

Lemma unknown_options_warned_defaults_used_witness :
  exists vo warnings,
    VisualOdometry_new Scene.camera Scene.some_options = Some (vo, warnings) /\
    ("verbose" ∈ warnings <->
     is_Some (Scene.some_options !! "verbose") /\ getDefaultOptions !! "verbose" = None) /\
    (Scene.some_options !! "max-pyramid-level" ≫= parseInt = None ->
     _num_pyramid_levels vo = 3).
Proof.
  destruct (unknown_options_warned_defaults_used (FRM := Scene.frame_api)
              (EST := Scene.estimator_api) (OPT := Scene.parsers) Scene.camera
              Scene.some_options Scene.gain_0_005)
    as (vo & warnings & Hnew & _ & Hwarn & _ & Hlevels & _); try reflexivity.
  exists vo, warnings. split; [exact Hnew|]. split; [apply Hwarn | exact Hlevels].
Defined.

(** ** The blocks of [processFrame] *)

Section DriverFacts.

Context {GEO : Geometry} {FRM : FrameAPI} {EST : EstimatorAPI} {HOM : HomographyAPI}.

(** Member reads through member writes. *)
Ltac members :=
  cbn [update_p set_motion_estimate set_motion_estimate_covariance set_pose
       set_ref_to_prev_frame set_initial_motion_estimate set_initial_motion_cov
       set_initial_homography_est set_frames set_change_reference_frames
       set_frame_count set_fast_threshold set_initial_rotation_pyramid_level
       set_estimator swap_ref_cur swap_prev_cur store_frame
       _options _params _ref_frame _prev_frame _cur_frame frames
       _change_reference_frames _ref_frame_change_threshold _frame_count
       _feature_window_size _num_pyramid_levels _target_pixels_per_feature
       _use_homography_initialization _fast_threshold _use_adaptive_threshold
       _fast_threshold_adaptive_gain _fast_threshold_min _fast_threshold_max
       _initial_rotation_pyramid_level _p _estimator
       motion_estimate motion_estimate_covariance pose ref_to_prev_frame
       initial_motion_estimate initial_motion_cov initial_homography_est
       fst snd] in *.

Lemma adaptThreshold_inv (vo vo1 : VisualOdometry) (width height : Z) :
  adaptThreshold vo width height = Some vo1 ->
  exists threshold,
    vo1 = set_fast_threshold threshold vo /\
    if _use_adaptive_threshold vo then
      exists adj,
        thresh_adjustment vo width height = Some adj /\
        threshold =
          clamp (Int32.add (_fast_threshold vo) adj)
            (_fast_threshold_min vo) (_fast_threshold_max vo)
    else threshold = _fast_threshold vo.
Proof.
  unfold adaptThreshold. destruct (_use_adaptive_threshold vo) eqn:Hadaptive.
  - destruct (thresh_adjustment vo width height) as [adj|]; [|discriminate].
    cbn [mbind option_bind]. intros [= <-]. members.
    eexists. split; [reflexivity|]. exists adj. split; reflexivity.
  - intros [= <-]. exists (_fast_threshold vo). split; [|reflexivity].
    destruct vo; reflexivity.
Qed.

Lemma call_estimateMotion_inv (vo vo1 : VisualOdometry) (ref target : frame_ptr)
    (depth_source : DepthSource) (ev : Event) :
  call_estimateMotion vo ref target depth_source = (vo1, ev) ->
  exists e store,
    vo1 = set_frames store (set_estimator e vo) /\
    ev = EvEstimateMotion ref target (initial_motion_estimate (_p vo))
           (isMotionEstimateValid e) (getNumInliers e).
Proof.
  unfold call_estimateMotion.
  destruct (estimateMotion _ _ _ _ _ _) as [[e fr] ft]. intros [= <- <-].
  members. eexists _, _. split; reflexivity.
Qed.

Lemma estimateInitialRotation_inv (vo vo1 : VisualOdometry) (prev cur : frame_ptr)
    (q : Quaterniond) (evs : list Event) :
  estimateInitialRotation vo prev cur = Some (vo1, q, evs) ->
  let level := MIN (Int32.sub (getNumLevels (frames vo prev)) 1) 4 in
  exists H,
    vo1 = set_initial_homography_est H (set_initial_rotation_pyramid_level 4 vo) /\
    rotation_from_homography vo H = Some q /\
    evs = [EvInitialRotation prev cur level (Int32.sub 4 level)] /\
    H = m3_mul
          (m3_mul full_size_scale (tracked_homography (frames vo prev) (frames vo cur)))
          (m3_inverse full_size_scale).
Proof.
  unfold estimateInitialRotation, rotation_from_homography, tracked_homography.
  members. intros Hrot.
  apply bind_Some in Hrot as (roll_sine & Hroll_sine & Hrot).
  apply bind_Some in Hrot as (roll & Hroll & Hrot).
  apply bind_Some in Hrot as (pitch_sine & Hpitch_sine & Hrot).
  apply bind_Some in Hrot as (pitch_asin & Hpitch_asin & Hrot).
  injection Hrot as <- <- <-.
  eexists. split; [reflexivity|]. split; [|split; reflexivity].
  rewrite Hroll_sine. cbn [mbind option_bind]. rewrite Hroll. cbn [mbind option_bind].
  rewrite Hpitch_sine. cbn [mbind option_bind]. rewrite Hpitch_asin. reflexivity.
Qed.

(** [estimateInitialRotation] returns exactly when the rotation can be
    read off the scaled homography. *)
Lemma estimateInitialRotation_returns (vo : VisualOdometry) (prev cur : frame_ptr) :
  is_Some (estimateInitialRotation vo prev cur) <->
  is_Some
    (rotation_from_homography vo
       (m3_mul
          (m3_mul full_size_scale (tracked_homography (frames vo prev) (frames vo cur)))
          (m3_inverse full_size_scale))).
Proof.
  unfold estimateInitialRotation, rotation_from_homography, tracked_homography,
    full_size_scale.
  members. change (Int32.shl 1 4) with 16.
  destruct (scalar_div (m3_get _ 1 2) _) as [roll_sine|]; cbn [mbind option_bind];
    [|split; intros [? [=]]].
  destruct (scalar_asin roll_sine) as [roll|]; cbn [mbind option_bind];
    [|split; intros [? [=]]].
  destruct (scalar_div (m3_get _ 0 2) _) as [pitch_sine|]; cbn [mbind option_bind];
    [|split; intros [? [=]]].
  destruct (scalar_asin pitch_sine) as [pitch_asin|]; cbn [mbind option_bind];
    [|split; intros [? [=]]].
  split; intros _; eexists; reflexivity.
Qed.

Lemma initialMotionEstimate_inv (vo vo1 : VisualOdometry) (changed : bool)
    (q : Quaterniond) (evs : list Event) :
  initialMotionEstimate vo changed = Some (vo1, q, evs) ->
  exists H level cov,
    vo1 = set_initial_motion_cov cov
            (set_initial_motion_estimate
               (iso_rotate (iso_inverse (ref_to_prev_frame (_p vo))) q)
               (set_initial_homography_est H
                  (set_initial_rotation_pyramid_level level vo))) /\
    if _use_homography_initialization vo then
      let template := if changed then _ref_frame vo else _prev_frame vo in
      let level := MIN (Int32.sub (getNumLevels (frames vo template)) 1) 4 in
      evs = [EvInitialRotation template (_cur_frame vo) level (Int32.sub 4 level)] /\
      rotation_from_homography vo H = Some q /\
      H = m3_mul
            (m3_mul full_size_scale
               (tracked_homography (frames vo template) (frames vo (_cur_frame vo))))
            (m3_inverse full_size_scale)
    else evs = [] /\ q = quat_wxyz 1 0 0 0.
Proof.
  unfold initialMotionEstimate.
  destruct (_use_homography_initialization vo) eqn:Huse.
  - assert (Hsame :
      (if changed then estimateInitialRotation vo (_ref_frame vo) (_cur_frame vo)
       else estimateInitialRotation vo (_prev_frame vo) (_cur_frame vo))
      = estimateInitialRotation vo (if changed then _ref_frame vo else _prev_frame vo)
          (_cur_frame vo))
      by (destruct changed; reflexivity).
    rewrite Hsame.
    destruct (estimateInitialRotation vo (if changed then _ref_frame vo else _prev_frame vo)
                (_cur_frame vo)) as [[[vo2 q2] evs2]|] eqn:Hrot;
      cbn [mbind option_bind]; [|discriminate].
    apply estimateInitialRotation_inv in Hrot as (H2 & -> & Hq2 & Hevs2 & Htracked).
    intros [= <- <- <-]. members.
    eexists _, _, _. split; [reflexivity|]. split; [exact Hevs2 | split; assumption].
  - cbn [mbind option_bind]. intros [= <- <- <-]. members.
    exists (initial_homography_est (_p vo)), (_initial_rotation_pyramid_level vo).
    eexists. split; [|split; reflexivity].
    destruct vo as [? ? ? ? ? ? ? ? ? ? ? ? ? ? ? ? ? ? ? [] ?]; reflexivity.
Qed.


Lemma initialMotionEstimate_returns (vo : VisualOdometry) (changed : bool) :
  is_Some (initialMotionEstimate vo changed) <->
  _use_homography_initialization vo = false \/
  is_Some (estimateInitialRotation vo (if changed then _ref_frame vo else _prev_frame vo)
             (_cur_frame vo)).
Proof.
  unfold initialMotionEstimate.
  assert (Hsame :
    (if changed then estimateInitialRotation vo (_ref_frame vo) (_cur_frame vo)
     else estimateInitialRotation vo (_prev_frame vo) (_cur_frame vo))
    = estimateInitialRotation vo (if changed then _ref_frame vo else _prev_frame vo)
        (_cur_frame vo))
    by (destruct changed; reflexivity).
  rewrite Hsame. clear Hsame.
  destruct (_use_homography_initialization vo).
  - destruct (estimateInitialRotation vo (if changed then _ref_frame vo else _prev_frame vo)
                (_cur_frame vo)) as [[[vo1 q] evs]|];
      cbn [mbind option_bind].
    + split; intros _; [right|]; eexists; reflexivity.
    + split; [intros [? [=]] | intros [[=] | [? [=]]]].
  - cbn [mbind option_bind]. split; intros _; [left|eexists]; reflexivity.
Qed.

(** Past the initial motion estimate, the temporal matching returns. *)
Lemma matchFrames_returns (vo : VisualOdometry) (changed : bool)
    (depth_source : DepthSource) :
  is_Some (matchFrames vo changed depth_source) <->
  is_Some (initialMotionEstimate vo changed).
Proof.
  unfold matchFrames.
  destruct (initialMotionEstimate vo changed) as [[[vo1 q] evs]|];
    cbn [mbind option_bind]; [|split; intros [? [=]]].
  destruct (call_estimateMotion vo1 _ _ _) as [vo2 ev].
  split; intros _; [eexists; reflexivity|].
  destruct (isMotionEstimateValid (_estimator vo2)); [eexists; reflexivity|].
  destruct (negb changed); [|eexists; reflexivity].
  destruct (retryAgainstPrevious vo2 q depth_source). eexists; reflexivity.
Qed.

Lemma switchReferenceFrames_inv (vo : VisualOdometry) :
  exists flag,
    switchReferenceFrames vo = set_change_reference_frames flag vo /\
    flag = (negb (isMotionEstimateValid (_estimator vo))
            || (getNumInliers (_estimator vo) <? _ref_frame_change_threshold vo)
            || _change_reference_frames vo).
Proof.
  unfold switchReferenceFrames.
  destruct (negb (isMotionEstimateValid (_estimator vo))
            || (getNumInliers (_estimator vo) <? _ref_frame_change_threshold vo)).
  - exists true. split; reflexivity.
  - exists (_change_reference_frames vo). split; [|reflexivity].
    destruct vo; reflexivity.
Qed.

(** The temporal matching, from a driver [vm] whose flag is down (as
    [rotateFrames] leaves it). *)
Lemma matchFrames_inv (vm vo' : VisualOdometry) (changed : bool)
    (depth_source : DepthSource) (evs : list Event) :
  matchFrames vm changed depth_source = Some (vo', evs) ->
  _change_reference_frames vm = false ->
  exists q rot,
    controls vo' = controls vm /\
    (if _use_homography_initialization vm then
       let template := if changed then _ref_frame vm else _prev_frame vm in
       let level := MIN (Int32.sub (getNumLevels (frames vm template)) 1) 4 in
       rot = [EvInitialRotation template (_cur_frame vm) level (Int32.sub 4 level)] /\
       rotation_from_homography vm (initial_homography_est (_p vo')) = Some q /\
       initial_homography_est (_p vo') =
         m3_mul
           (m3_mul full_size_scale
              (tracked_homography (frames vm template) (frames vm (_cur_frame vm))))
           (m3_inverse full_size_scale)
     else rot = [] /\ q = quat_wxyz 1 0 0 0) /\
    let e := _estimator vo' in
    let first valid n :=
      EvEstimateMotion (_ref_frame vm) (_cur_frame vm)
        (iso_rotate (iso_inverse (ref_to_prev_frame (_p vm))) q) valid n in
    let second valid n :=
      EvEstimateMotion (_prev_frame vm) (_cur_frame vm)
        (iso_rotate iso_Identity q) valid n in
    let kept :=
      pose (_p vo') = pose (_p vm) /\
      motion_estimate (_p vo') = motion_estimate (_p vm) /\
      ref_to_prev_frame (_p vo') = ref_to_prev_frame (_p vm) /\
      _change_reference_frames vo' = true in
    (isMotionEstimateValid e = true /\
     evs = rot ++ [first true (getNumInliers e)] /\
     motion_estimate (_p vo') = iso_mul (ref_to_prev_frame (_p vm)) (getMotionEstimate e) /\
     ref_to_prev_frame (_p vo') = iso_inverse (getMotionEstimate e) /\
     pose (_p vo') = iso_mul (pose (_p vm)) (motion_estimate (_p vo')) /\
     _change_reference_frames vo' = (getNumInliers e <? _ref_frame_change_threshold vm))
    \/ (changed = true /\ isMotionEstimateValid e = false /\
        (exists n, evs = rot ++ [first false n]) /\ kept)
    \/ (changed = false /\ isMotionEstimateValid e = true /\
        (exists n, evs = rot ++ [first false n; second true (getNumInliers e)]) /\
        motion_estimate (_p vo') = getMotionEstimate e /\
        ref_to_prev_frame (_p vo') = ref_to_prev_frame (_p vm) /\
        pose (_p vo') = iso_mul (pose (_p vm)) (motion_estimate (_p vo')) /\
        _change_reference_frames vo' = true)
    \/ (changed = false /\ isMotionEstimateValid e = false /\
        (exists n m, evs = rot ++ [first false n; second false m]) /\ kept).
Proof.
  intros Hmatch Hflag. unfold matchFrames in Hmatch.
  destruct (initialMotionEstimate vm changed) as [[[vo1 q] rot]|] eqn:Hinit;
    cbn [mbind option_bind] in Hmatch; [|discriminate].
  apply initialMotionEstimate_inv in Hinit as (H & level & cov & -> & Hrot).
  destruct (call_estimateMotion _ _ _ _) as [vo2 ev1] eqn:Hcall1.
  apply call_estimateMotion_inv in Hcall1 as (e1 & store1 & -> & ->).
  members. exists q, rot.
  destruct (isMotionEstimateValid e1) eqn:Hvalid1.
  - (* estimate against the reference frame *)
    injection Hmatch as <- <-.
    destruct (switchReferenceFrames_inv (acceptReferenceEstimate
                (set_frames store1 (set_estimator e1
                   (set_initial_motion_cov cov
                      (set_initial_motion_estimate
                         (iso_rotate (iso_inverse (ref_to_prev_frame (_p vm))) q)
                         (set_initial_homography_est H
                            (set_initial_rotation_pyramid_level level vm))))))))
      as (flag & -> & Hf).
    unfold acceptReferenceEstimate in *. members.
    rewrite Hvalid1, Hflag in Hf. cbn in Hf. rewrite orb_false_r in Hf. subst flag.
    split; [reflexivity|]. split.
    { destruct (_use_homography_initialization vm); exact Hrot. }
    left. repeat split; try reflexivity; assumption.
  - destruct changed; cbn [negb] in Hmatch.
    + (* the reference frame was changed: no second attempt *)
      injection Hmatch as <- <-.
      match goal with |- context [switchReferenceFrames ?v] =>
        destruct (switchReferenceFrames_inv v) as (flag & -> & Hf) end.
      members. rewrite Hvalid1 in Hf. cbn in Hf. subst flag.
      split; [reflexivity|]. split.
      { destruct (_use_homography_initialization vm); exact Hrot. }
      right; left. repeat split; try reflexivity; try assumption.
      eexists. reflexivity.
    + (* try estimating against the previous frame *)
      unfold retryAgainstPrevious in Hmatch.
      destruct (call_estimateMotion _ _ _ _) as [vo3 ev2] eqn:Hcall2.
      apply call_estimateMotion_inv in Hcall2 as (e2 & store2 & -> & ->).
      members.
      destruct (isMotionEstimateValid e2) eqn:Hvalid2.
      * injection Hmatch as <- <-.
        match goal with |- context [switchReferenceFrames ?v] =>
          destruct (switchReferenceFrames_inv v) as (flag & -> & Hf) end.
        unfold acceptPreviousEstimate in *. members.
        rewrite orb_true_r in Hf. subst flag.
        split; [reflexivity|]. split.
        { destruct (_use_homography_initialization vm); exact Hrot. }
        right; right; left. repeat split; try reflexivity; try assumption.
        eexists. reflexivity.
      * injection Hmatch as <- <-.
        match goal with |- context [switchReferenceFrames ?v] =>
          destruct (switchReferenceFrames_inv v) as (flag & -> & Hf) end.
        members. rewrite Hvalid2 in Hf. cbn in Hf. subst flag.
        split; [reflexivity|]. split.
        { destruct (_use_homography_initialization vm); exact Hrot. }
        right; right; right. repeat split; try reflexivity; try assumption.
        eexists _, _. reflexivity.
Qed.


Lemma rotateFrames_pointers (vo : VisualOdometry) :
  _ref_frame (rotateFrames vo) =
    (if _change_reference_frames vo then _cur_frame vo else _ref_frame vo) /\
  _prev_frame (rotateFrames vo) =
    (if _change_reference_frames vo then _prev_frame vo else _cur_frame vo) /\
  _cur_frame (rotateFrames vo) =
    (if _change_reference_frames vo then _ref_frame vo else _prev_frame vo) /\
  ref_to_prev_frame (_p (rotateFrames vo)) = ref_to_prev_at_start vo /\
  pose (_p (rotateFrames vo)) = pose (_p vo) /\
  motion_estimate (_p (rotateFrames vo)) = iso_Identity /\
  _change_reference_frames (rotateFrames vo) = false /\
  frames (rotateFrames vo) = frames vo /\
  _estimator (rotateFrames vo) = _estimator vo /\
  _frame_count (rotateFrames vo) = _frame_count vo /\
  _fast_threshold (rotateFrames vo) = _fast_threshold vo /\
  settings (rotateFrames vo) = settings vo.
Proof.
  unfold rotateFrames, ref_to_prev_at_start, settings.
  destruct (_change_reference_frames vo); members; repeat split.
Qed.

(** The frame pointers after a call, and the members that only change in
    the first blocks. *)
Lemma processFrame_members (vo vo' : VisualOdometry) (gray : Image)
    (depth_source : DepthSource) (tr : list Event) :
  processFrame vo gray depth_source = Some (vo', tr) ->
  _ref_frame vo' =
    (if _change_reference_frames vo then _cur_frame vo else _ref_frame vo) /\
  _prev_frame vo' =
    (if _change_reference_frames vo then _prev_frame vo else _cur_frame vo) /\
  _cur_frame vo' =
    (if _change_reference_frames vo then _ref_frame vo else _prev_frame vo) /\
  _frame_count vo' = Int32.add (_frame_count vo) 1 /\
  settings vo' = settings vo /\
  adaptThreshold (detectFeatures (rotateFrames vo) gray depth_source)
    (cam_width (_params vo)) (cam_height (_params vo))
  = Some (set_fast_threshold (_fast_threshold vo')
            (detectFeatures (rotateFrames vo) gray depth_source)).
Proof.
  intros Hpf. unfold processFrame in Hpf.
  destruct (rotateFrames_pointers vo)
    as (Hr & Hp & Hc & _ & _ & _ & Hfl & _ & _ & Hn & Hth & Hset).
  unfold settings in *.
  remember (rotateFrames vo) as vr eqn:Hvr. clear Hvr.
  unfold detectFeatures in *. members.
  injection Hset as Hs1 Hs2 Hs3 Hs4 Hs5 Hs6 Hs7 Hs8.
  rewrite <- Hs8.
  destruct (adaptThreshold _ _ _) as [va|] eqn:Hadapt; [|discriminate].
  cbn [mbind option_bind] in Hpf.
  pose proof Hadapt as Hinv.
  apply adaptThreshold_inv in Hinv as (threshold & -> & _).
  members. destruct (Int32.add (_frame_count vr) 1 <? 2).
  - injection Hpf as <- <-. members. rewrite <- Hr, <- Hp, <- Hc, <- Hn.
    repeat split; congruence.
  - destruct (matchFrames _ _ _) as [[vm evs]|] eqn:Hmatch;
      cbn [mbind option_bind] in Hpf; [|discriminate].
    apply matchFrames_inv in Hmatch as (q & rot & Hctl & _); [|exact Hfl].
    injection Hpf as <- <-. unfold controls in Hctl. members.
    injection Hctl as -> -> -> -> -> -> -> -> -> -> -> -> ->.
    rewrite <- Hr, <- Hp, <- Hc, <- Hn.
    repeat split; congruence.
Qed.


(** Every call that returns took one of the five paths. *)
Lemma processFrame_paths (vo vo' : VisualOdometry) (gray : Image)
    (depth_source : DepthSource) (tr : list Event) :
  processFrame vo gray depth_source = Some (vo', tr) ->
  let detected := detectFeatures (rotateFrames vo) gray depth_source in
  exists q rot ests,
    tr = EvPrepareFrame (_cur_frame vo') (_fast_threshold vo) :: rot ++ ests /\
    frame_path vo vo' q ests /\
    if _frame_count vo' <? 2 then rot = [] /\ frames vo' = frames detected
    else rotation_path vo vo' (frames detected) q rot.
Proof.
  intros Hpf detected.
  destruct (processFrame_members _ _ _ _ _ Hpf) as (Hr' & Hp' & Hc' & Hn' & Hset' & _).
  subst detected. unfold processFrame in Hpf.
  destruct (rotateFrames_pointers vo)
    as (Hr & Hp & Hc & Hr2p & Hpose & Hmot & Hfl & Hfr & Hest & Hn & Hth & Hset).
  unfold settings in *.
  remember (rotateFrames vo) as vr eqn:Hvr. clear Hvr.
  injection Hset as Hs1 Hs2 Hs3 Hs4 Hs5 Hs6 Hs7 Hs8.
  injection Hset' as Ht1 Ht2 Ht3 Ht4 Ht5 Ht6 Ht7 Ht8.
  unfold detectFeatures in *. members.
  destruct (adaptThreshold _ _ _) as [va|] eqn:Hadapt; [|discriminate].
  cbn [mbind option_bind] in Hpf.
  apply adaptThreshold_inv in Hadapt as (threshold & -> & _).
  members. rewrite Hn' , <- Hn. rewrite <- Hth, Hc', <- Hc.
  destruct (Int32.add (_frame_count vr) 1 <? 2) eqn:Hfirst.
  - (* the first frame *)
    injection Hpf as <- <-. members.
    exists (quat_wxyz 1 0 0 0), [], []. split; [reflexivity|]. split; [|split; reflexivity].
    apply path_bootstrap; members; try congruence.
    apply Z.ltb_lt in Hfirst. exact Hfirst.
  - destruct (matchFrames _ _ _) as [[vm evs]|] eqn:Hmatch;
      cbn [mbind option_bind] in Hpf; [|discriminate].
    apply matchFrames_inv in Hmatch as (q & rot & Hctl & Hrot & Hcases); [|exact Hfl].
    injection Hpf as <- <-. unfold controls in Hctl. members.
    injection Hctl as Hc1 Hc2 Hc3 Hc4 Hc5 Hc6 Hc7 Hc8 Hc9 Hc10 Hc11 Hc12 Hc13.
    apply Z.ltb_ge in Hfirst. rewrite <- Hc5 in Hfirst.
    assert (Htemplate :
      (if _change_reference_frames vo then _ref_frame vr else _prev_frame vr)
      = _cur_frame vo)
      by (rewrite Hr, Hp; destruct (_change_reference_frames vo); reflexivity).
    rewrite Htemplate in Hrot.
    unfold rotation_from_homography in Hrot. members. rewrite Hs1 in Hrot.
    exists q, rot.
    match goal with |- context [rotation_path vo vm ?st q rot] =>
      assert (Hrotation : rotation_path vo vm st q rot) end.
    { unfold rotation_path, rotation_from_homography. rewrite <- Hs4, Hc4.
      destruct (_use_homography_initialization vr); exact Hrot. }
    rewrite <- Hc2, <- Hc3, <- Hc4, <- Hc6, Hr2p, Hpose, Hmot in Hcases.
    destruct Hcases as [Hcase | [Hcase | [Hcase | Hcase]]].
    + destruct Hcase as (Hvalid & -> & Hm & Hr2 & Hpo & Hflag).
      eexists. split; [reflexivity|]. split; [|exact Hrotation].
      apply path_reference; assumption.
    + destruct Hcase as (Hchanged & Hvalid & [n ->] & Hpo & Hm & Hr2 & Hflag).
      eexists. split; [reflexivity|]. split; [|exact Hrotation].
      unfold ref_to_prev_at_start in *. rewrite Hchanged in *.
      apply path_reanchor; assumption.
    + destruct Hcase as (Hchanged & Hvalid & [n ->] & Hm & Hr2 & Hpo & Hflag).
      eexists. split; [reflexivity|]. split; [|exact Hrotation].
      unfold ref_to_prev_at_start in *. rewrite Hchanged in *.
      apply path_fallback; assumption.
    + destruct Hcase as (Hchanged & Hvalid & (n & m & ->) & Hpo & Hm & Hr2 & Hflag).
      eexists. split; [reflexivity|]. split; [|exact Hrotation].
      unfold ref_to_prev_at_start in *. rewrite Hchanged in *.
      apply path_lost; assumption.
Qed.

(** A call returns exactly when the steps it reaches have a value: the
    threshold adjustment, with the adaptive threshold enabled, and the
    rotation read off the homography of the frame before and the new
    current frame, with the homography initialization enabled on a frame
    that is not the first. *)
Lemma processFrame_returns (vo : VisualOdometry) (gray : Image)
    (depth_source : DepthSource) :
  let detected := detectFeatures (rotateFrames vo) gray depth_source in
  is_Some (processFrame vo gray depth_source) <->
  (_use_adaptive_threshold vo = false \/
   is_Some (thresh_adjustment detected (cam_width (_params vo)) (cam_height (_params vo))))
  /\
  (Int32.add (_frame_count vo) 1 < 2 \/
   _use_homography_initialization vo = false \/
   is_Some
     (rotation_from_homography vo
        (m3_mul
           (m3_mul full_size_scale
              (tracked_homography (frames detected (_cur_frame vo))
                 (frames detected (_cur_frame detected))))
           (m3_inverse full_size_scale)))).
Proof.
  cbv zeta. unfold processFrame.
  destruct (rotateFrames_pointers vo)
    as (Hr & Hp & _ & _ & _ & _ & _ & _ & _ & Hn & _ & Hset).
  remember (rotateFrames vo) as vr eqn:Hvr. clear Hvr.
  unfold settings in Hset. injection Hset as Hs1 _ _ Hs4 Hs5 _ _ _.
  change (_params (detectFeatures vr gray depth_source)) with (_params vr).
  change (_cur_frame (detectFeatures vr gray depth_source)) with (_cur_frame vr).
  rewrite Hs1, <- Hs5, <- Hs4, <- Hn.
  remember (detectFeatures vr gray depth_source) as vd eqn:Hvd.
  assert (Hd : _params vd = _params vo /\ _use_adaptive_threshold vd = _use_adaptive_threshold vr
               /\ _use_homography_initialization vd = _use_homography_initialization vr
               /\ _frame_count vd = _frame_count vr /\ _ref_frame vd = _ref_frame vr
               /\ _prev_frame vd = _prev_frame vr /\ _cur_frame vd = _cur_frame vr)
    by (subst vd; repeat split; exact Hs1).
  destruct Hd as (Hd1 & Hd2 & Hd3 & Hd4 & Hd5 & Hd6 & Hd7). clear Hvd.
  assert (Hmatch : forall threshold,
    is_Some
      (let vo1 :=
         set_frame_count (Int32.add (_frame_count (set_fast_threshold threshold vd)) 1)
           (set_fast_threshold threshold vd) in
       if _frame_count vo1 <? 2
       then Some (set_change_reference_frames true vo1,
                  [EvPrepareFrame (_cur_frame vr) (_fast_threshold vr)])
       else '(vo2, evs) ← matchFrames vo1 (_change_reference_frames vo) depth_source;
            Some (vo2, EvPrepareFrame (_cur_frame vr) (_fast_threshold vr) :: evs))
    <->
    (Int32.add (_frame_count vr) 1 < 2 \/
     _use_homography_initialization vr = false \/
     is_Some
       (rotation_from_homography vo
          (m3_mul
             (m3_mul full_size_scale
                (tracked_homography (frames vd (_cur_frame vo)) (frames vd (_cur_frame vr))))
             (m3_inverse full_size_scale))))).
  { intros threshold. cbv zeta. members. rewrite Hd4.
    destruct (Z.ltb_spec (Int32.add (_frame_count vr) 1) 2) as [Hlt | Hge].
    - split; [intros _; left; exact Hlt | intros _; eexists; reflexivity].
    - match goal with |- is_Some (?m ≫= _) <-> _ =>
        assert (Hbind : is_Some m <-> is_Some (m ≫= fun '(vo2, evs) =>
          Some (vo2, EvPrepareFrame (_cur_frame vr) (_fast_threshold vr) :: evs)))
          by (destruct m as [[? ?]|]; cbn [mbind option_bind];
              split; intros [? Hx]; try discriminate Hx; eexists; reflexivity)
      end.
      rewrite <- Hbind, matchFrames_returns, initialMotionEstimate_returns,
        estimateInitialRotation_returns.
      members. rewrite Hd3, Hd5, Hd6, Hd7.
      assert (Htemplate :
        (if _change_reference_frames vo then _ref_frame vr else _prev_frame vr)
        = _cur_frame vo)
        by (rewrite Hr, Hp; destruct (_change_reference_frames vo); reflexivity).
      rewrite Htemplate.
      unfold rotation_from_homography. members. rewrite Hd1.
      split; [intros Hx; right; exact Hx | intros [Hx | Hx]; [lia | exact Hx]]. }
  destruct (adaptThreshold vd _ _) as [va|] eqn:Hadapt; cbn [mbind option_bind].
  - pose proof Hadapt as Hinv.
    apply adaptThreshold_inv in Hinv as (threshold & -> & Hif).
    members. rewrite Hmatch.
    split; [intros Hx; split; [|exact Hx] | intros [_ Hx]; exact Hx].
    rewrite Hd2 in Hif. destruct (_use_adaptive_threshold vr); [right | left; reflexivity].
    destruct Hif as (adj & -> & _). eexists; reflexivity.
  - split; [intros [? [=]]|]. intros [Hcond _]. exfalso.
    unfold adaptThreshold in Hadapt. rewrite Hd2 in Hadapt.
    destruct Hcond as [Hoff | [adj Hadj]].
    + rewrite Hoff in Hadapt. discriminate.
    + rewrite Hadj in Hadapt. destruct (_use_adaptive_threshold vr); discriminate.
Qed.

End DriverFacts.

(** ** The reference-frame state machine *)

Section StateMachine.

Context {GEO : Geometry} {FRM : FrameAPI} {EST : EstimatorAPI} {HOM : HomographyAPI}.

Lemma estimates_app (l1 l2 : list Event) :
  estimates (l1 ++ l2) = estimates l1 ++ estimates l2.
Proof. unfold estimates. induction l1 as [|ev l1 IH]; cbn; [reflexivity|].
  destruct (is_estimate ev); cbn; congruence. Qed.

Lemma In_estimates (tr : list Event) ref target init valid n :
  In (EvEstimateMotion ref target init valid n) tr ->
  In (EvEstimateMotion ref target init valid n) (estimates tr).
Proof. intros Hin. unfold estimates. apply filter_In. split; [exact Hin | reflexivity]. Qed.

(** The estimations in the trace of a call are those of its path; the
    homography runs are those of [rotation_path]. *)
Lemma processFrame_estimates (vo vo' : VisualOdometry) (gray : Image)
    (depth_source : DepthSource) (tr : list Event) :
  processFrame vo gray depth_source = Some (vo', tr) ->
  exists q rot,
    frame_path vo vo' q (estimates tr) /\
    rotations tr = rot /\
    tr = EvPrepareFrame (_cur_frame vo') (_fast_threshold vo) :: rot ++ estimates tr /\
    if _frame_count vo' <? 2 then
      rot = [] /\
      frames vo' = frames (detectFeatures (rotateFrames vo) gray depth_source)
    else
      rotation_path vo vo' (frames (detectFeatures (rotateFrames vo) gray depth_source))
        q rot.
Proof.
  intros Hpf. apply processFrame_paths in Hpf as (q & rot & ests & -> & Hpath & Hrot).
  cbn zeta in Hrot. exists q, rot.
  assert (Hests : estimates ests = ests).
  { destruct Hpath; reflexivity. }
  assert (Hrots : estimates rot = [] /\ rotations rot = rot /\ rotations ests = []).
  { assert (Hr : rot = [] \/ exists a b c d, rot = [EvInitialRotation a b c d]).
    { destruct (_frame_count vo' <? 2); [left; tauto|].
      unfold rotation_path in Hrot.
      destruct (_use_homography_initialization vo); [right | left; tauto].
      destruct Hrot as (-> & _). eauto. }
    split; [|split].
    - destruct Hr as [-> | (a & b & c & d & ->)]; reflexivity.
    - destruct Hr as [-> | (a & b & c & d & ->)]; reflexivity.
    - destruct Hpath; reflexivity. }
  destruct Hrots as (Hr1 & Hr2 & Hr3).
  change (estimates (EvPrepareFrame (_cur_frame vo') (_fast_threshold vo) :: rot ++ ests))
    with (estimates (rot ++ ests)).
  rewrite estimates_app, Hr1, Hests. cbn [app].
  split; [exact Hpath|]. split; [|split; [reflexivity | exact Hrot]].
  change (rotations (EvPrepareFrame (_cur_frame vo') (_fast_threshold vo) :: rot ++ ests))
    with (rotations (rot ++ ests)).
  unfold rotations in *. rewrite List.filter_app, Hr2, Hr3. apply app_nil_r.
Qed.

Lemma detectFeatures_frames (vr : VisualOdometry) (gray : Image)
    (depth_source : DepthSource) (ptr : frame_ptr) :
  frames (detectFeatures vr gray depth_source) ptr =
    if decide (ptr = _cur_frame vr)
    then prepareFrame (frames vr (_cur_frame vr)) gray (_fast_threshold vr) depth_source
    else frames vr ptr.
Proof. reflexivity. Qed.

(** The threshold adjustment of a call, in terms of the driver before the
    call: the keypoints are counted in the frame the call prepares. *)
Lemma thresh_adjustment_detected (vo : VisualOdometry) (gray : Image)
    (depth_source : DepthSource) :
  thresh_adjustment (detectFeatures (rotateFrames vo) gray depth_source)
    (cam_width (_params vo)) (cam_height (_params vo))
  = (target ← Int32.div (Int32.mul (cam_width (_params vo)) (cam_height (_params vo)))
                (_target_pixels_per_feature vo);
     Double.to_int
       (Double.mul
          (Double.of_int
             (Int32.sub
                (getNumDetectedKeypoints
                   (prepareFrame
                      (frames vo
                         (if _change_reference_frames vo then _ref_frame vo
                          else _prev_frame vo))
                      gray (_fast_threshold vo) depth_source))
                target))
          (_fast_threshold_adaptive_gain vo))).
Proof.
  destruct (rotateFrames_pointers vo)
    as (_ & _ & Hc & _ & _ & _ & _ & Hfr & _ & _ & Hth & Hset).
  remember (rotateFrames vo) as vr eqn:Hvr. clear Hvr.
  unfold settings in Hset. injection Hset as _ _ Hs3 _ _ Hs6 _ _.
  rewrite <- Hc, <- Hfr, <- Hth, <- Hs3, <- Hs6.
  unfold thresh_adjustment. rewrite detectFeatures_frames.
  change (_cur_frame (detectFeatures vr gray depth_source)) with (_cur_frame vr).
  rewrite decide_True by reflexivity. reflexivity.
Qed.

(** The driver as the constructor leaves it. *)
Lemma constructed_driver_members {OPT : OptionParsers}
    (params : CameraIntrinsicsParameters) (options : VisualOdometryOptions)
    (vo : VisualOdometry) (warnings : list string) :
  VisualOdometry_new params options = Some (vo, warnings) ->
  distinct_frames vo /\
  _frame_count vo = 0 /\
  _change_reference_frames vo = false /\
  pose (_p vo) = iso_Identity /\
  ref_to_prev_frame (_p vo) = iso_Identity /\
  _fast_threshold_min vo = 5 /\ _fast_threshold_max vo = 70.
Proof.
  unfold VisualOdometry_new. intros Hnew.
  repeat match type of Hnew with
  | (?reader ≫= _) = Some _ =>
      destruct reader; cbn [mbind option_bind] in Hnew; [|discriminate Hnew]
  end.
  injection Hnew as <- _. cbn. unfold distinct_frames. cbn.
  repeat split; discriminate.
Qed.

(** The three frame pointers stay three different frames. *)
Lemma distinct_frames_preserved (vo vo' : VisualOdometry) (gray : Image)
    (depth_source : DepthSource) (tr : list Event) :
  processFrame vo gray depth_source = Some (vo', tr) ->
  distinct_frames vo -> distinct_frames vo'.
Proof.
  intros Hpf (Hrp & Hrc & Hpc).
  destruct (processFrame_members _ _ _ _ _ Hpf) as (Hr & Hp & Hc & _).
  unfold distinct_frames. rewrite Hr, Hp, Hc.
  destruct (_change_reference_frames vo); repeat split; congruence.
Qed.


(** C1, as the code has it.  When every estimation of a frame fails (the
    one against the reference frame and, where it is run, the one against
    the previous frame), the pose is kept and the change-reference flag is
    set.  When an estimation succeeds with fewer inliers than
    [_ref_frame_change_threshold], the flag is set as well, but the pose is
    accumulated: [pose <- pose * motion_estimate]. *)
Theorem reanchor_sets_flag (vo vo' : VisualOdometry) (gray : Image)
    (depth_source : DepthSource) (tr : list Event) :
  processFrame vo gray depth_source = Some (vo', tr) ->
  ((forall ref target init valid n,
      In (EvEstimateMotion ref target init valid n) tr -> valid = false) ->
   pose (_p vo') = pose (_p vo) /\
   motion_estimate (_p vo') = iso_Identity /\
   _change_reference_frames vo' = true) /\
  (forall ref target init n,
     In (EvEstimateMotion ref target init true n) tr ->
     n < _ref_frame_change_threshold vo ->
     pose (_p vo') = iso_mul (pose (_p vo)) (motion_estimate (_p vo')) /\
     _change_reference_frames vo' = true).
Proof.
  intros Hpf.
  destruct (processFrame_members _ _ _ _ _ Hpf) as (_ & _ & _ & _ & Hset & _).
  injection Hset as _ Hthr _ _ _ _ _ _.
  apply processFrame_estimates in Hpf as (q & rot & Hpath & _ & _ & _).
  split.
  - intros Hfail.
    assert (Hfail' : forall ref target init valid n,
               In (EvEstimateMotion ref target init valid n) (estimates tr) ->
               valid = false).
    { intros ref target init valid n Hin. unfold estimates in Hin.
      apply filter_In in Hin as [Hin _]. eauto. }
    remember (estimates tr) as ests eqn:Hests.
    destruct Hpath; try (repeat split; assumption); exfalso.
    + pose proof (Hfail' _ _ _ _ _ (or_introl eq_refl)) as Hx. discriminate Hx.
    + pose proof (Hfail' _ _ _ _ _ (or_intror (or_introl eq_refl))) as Hx.
      discriminate Hx.
  - intros ref target init n Hin Hlow. apply In_estimates in Hin.
    remember (estimates tr) as ests eqn:Hests.
    destruct Hpath as [ | ? ? ? ? ? Hf | | | ]; cbn [In] in Hin.
    + contradiction.
    + destruct Hin as [[= _ _ _ <-] | []]. split; [assumption|].
      rewrite Hf. apply Z.ltb_lt. lia.
    + destruct Hin as [[=] | []].
    + split; assumption.
    + destruct Hin as [[=] | [[=] | []]].
Qed.

(** C4.  When the estimation against the reference frame fails and the
    one against the previous frame succeeds, the pose is accumulated with
    the estimate against the previous frame and the change-reference flag
    is set. *)
Theorem fallback_accumulates_and_sets_flag (vo vo' : VisualOdometry) (gray : Image)
    (depth_source : DepthSource) (tr : list Event)
    (ref1 target1 ref2 target2 : frame_ptr) (init1 init2 : Isometry3d) (n1 n2 : Z) :
  processFrame vo gray depth_source = Some (vo', tr) ->
  estimates tr = [EvEstimateMotion ref1 target1 init1 false n1;
                  EvEstimateMotion ref2 target2 init2 true n2] ->
  ref1 = _ref_frame vo' /\ ref2 = _prev_frame vo' /\
  target1 = _cur_frame vo' /\ target2 = _cur_frame vo' /\
  motion_estimate (_p vo') = getMotionEstimate (_estimator vo') /\
  pose (_p vo') = iso_mul (pose (_p vo)) (motion_estimate (_p vo')) /\
  _change_reference_frames vo' = true.
Proof.
  intros Hpf Hests.
  apply processFrame_estimates in Hpf as (q & rot & Hpath & _ & _ & _).
  rewrite Hests in Hpath.
  inversion Hpath; subst. repeat split; assumption.
Qed.

(** C10.  After a call that set the change-reference flag, the next call
    runs at most one motion estimation, against the reference frame: a
    failure there is not followed by an attempt against the previous
    frame. *)
Theorem no_fallback_after_reference_change (vo vo' : VisualOdometry) (gray : Image)
    (depth_source : DepthSource) (tr : list Event) :
  _change_reference_frames vo = true ->
  processFrame vo gray depth_source = Some (vo', tr) ->
  (length (estimates tr) <= 1)%nat /\
  forall ref target init valid n,
    In (EvEstimateMotion ref target init valid n) tr ->
    ref = _ref_frame vo' /\ target = _cur_frame vo'.
Proof.
  intros Hflag Hpf.
  apply processFrame_estimates in Hpf as (q & rot & Hpath & _ & _ & _).
  assert (Hshape :
    estimates tr = [] \/
    exists init valid n,
      estimates tr = [EvEstimateMotion (_ref_frame vo') (_cur_frame vo') init valid n]).
  { destruct Hpath; try congruence; eauto 6. }
  split.
  - destruct Hshape as [-> | (init & valid & n & ->)]; cbn; lia.
  - intros ref target init valid n Hin. apply In_estimates in Hin.
    destruct Hshape as [Hnil | (init' & valid' & n' & Hone)].
    + rewrite Hnil in Hin. contradiction.
    + rewrite Hone in Hin. destruct Hin as [[= <- <- _ _ _] | []]. split; reflexivity.
Qed.

(** C3.  When a call ends with the change-reference flag set, the next
    call makes the frame prepared by that call (the former current frame)
    the reference frame: the two pointers change places, no frame is
    copied.  [ref_to_prev] is the identity when the estimation starts: the
    estimator is run against the promoted frame from the inverse of the
    identity, rotated by the initial rotation. *)
Theorem reference_promoted_on_next_frame (vo0 vo vo' : VisualOdometry)
    (gray0 gray : Image) (depth0 depth_source : DepthSource) (tr0 tr : list Event) :
  processFrame vo0 gray0 depth0 = Some (vo, tr0) ->
  _change_reference_frames vo = true ->
  processFrame vo gray depth_source = Some (vo', tr) ->
  In (EvPrepareFrame (_ref_frame vo') (_fast_threshold vo0)) tr0 /\
  _ref_frame vo' = _cur_frame vo /\
  _cur_frame vo' = _ref_frame vo /\
  _prev_frame vo' = _prev_frame vo /\
  frames (rotateFrames vo) = frames vo /\
  ref_to_prev_frame (_p (rotateFrames vo)) = iso_Identity /\
  (estimates tr = [] \/
   exists q valid n,
     estimates tr =
       [EvEstimateMotion (_cur_frame vo) (_ref_frame vo)
          (iso_rotate (iso_inverse iso_Identity) q) valid n]).
Proof.
  intros Hpf0 Hflag Hpf.
  destruct (processFrame_members _ _ _ _ _ Hpf) as (Hr & Hp & Hc & _).
  rewrite Hflag in Hr, Hp, Hc.
  destruct (rotateFrames_pointers vo) as (_ & _ & _ & Hr2p & _ & _ & _ & Hfr & _).
  unfold ref_to_prev_at_start in Hr2p. rewrite Hflag in Hr2p.
  apply processFrame_estimates in Hpf0 as (q0 & rot0 & _ & _ & Htr0 & _).
  apply processFrame_estimates in Hpf as (q & rot & Hpath & _ & _ & _).
  split; [rewrite Htr0, Hr; left; reflexivity|].
  repeat split; try assumption.
  rewrite <- Hr, <- Hc.
  destruct Hpath; try congruence; eauto 6.
  right. unfold ref_to_prev_at_start. rewrite Hflag. eauto.
Qed.


Lemma normal_frame_step (vo vo' : VisualOdometry) (gray : Image)
    (depth_source : DepthSource) (tr : list Event) :
  processFrame vo gray depth_source = Some (vo', tr) ->
  normal_frame (vo', tr) ->
  pose (_p vo') = iso_mul (pose (_p vo)) (motion_estimate (_p vo')) /\
  motion_estimate (_p vo') =
    iso_mul (ref_to_prev_at_start vo) (getMotionEstimate (_estimator vo')) /\
  _change_reference_frames vo' = false.
Proof.
  intros Hpf (ref & target & init & n & Hests & Hn). cbn [fst snd] in *.
  apply processFrame_estimates in Hpf as (q & rot & Hpath & _ & _ & _).
  rewrite Hests in Hpath. inversion Hpath as [ | ? ? ? ? ? Hf | | | ]; subst.
  repeat split; try assumption. rewrite Hf. apply Z.ltb_ge. exact Hn.
Qed.

Lemma final_state_cons (vo : VisualOdometry) (r : VisualOdometry * list Event)
    (later : list (VisualOdometry * list Event)) :
  final_state vo (r :: later) = final_state r.1 later.
Proof.
  unfold final_state. rewrite last_cons. destruct (last later); reflexivity.
Qed.

Lemma processFrames_cons (vo : VisualOdometry) (gray : Image) (depth_source : DepthSource)
    (rest : list (Image * DepthSource)) (results : list (VisualOdometry * list Event)) :
  processFrames vo ((gray, depth_source) :: rest) = Some results ->
  exists vo' tr later,
    processFrame vo gray depth_source = Some (vo', tr) /\
    processFrames vo' rest = Some later /\
    results = (vo', tr) :: later.
Proof.
  cbn [processFrames]. intros Hrun.
  destruct (processFrame vo gray depth_source) as [[vo' tr]|] eqn:Hpf;
    cbn [mbind option_bind fst] in Hrun; [|discriminate Hrun].
  destruct (processFrames vo' rest) as [later|] eqn:Hlater;
    cbn [mbind option_bind] in Hrun; [|discriminate Hrun].
  injection Hrun as <-. exists vo', tr, later. repeat split. exact Hlater.
Qed.

(** C5.  Over any run of frames that are all NORMAL (the estimation
    against the reference frame succeeds with at least
    [_ref_frame_change_threshold] inliers): every frame multiplies the
    pose on the right by its motion estimate, so the pose after the run is
    the pose before it times the ordered product of the motion estimates
    (from the identity pose: [((I * T_1) * T_2) ... * T_N]); no frame sets
    the change-reference flag and the reference pointer stays where the
    first frame of the run found it. *)
Theorem normal_frames_compose_pose (vo : VisualOdometry)
    (inputs : list (Image * DepthSource))
    (results : list (VisualOdometry * list Event)) :
  processFrames vo inputs = Some results ->
  Forall normal_frame results ->
  pose (_p (final_state vo results)) =
    fold_left iso_mul ((fun r => motion_estimate (_p r.1)) <$> results) (pose (_p vo)) /\
  Forall (fun r => _change_reference_frames r.1 = false) results /\
  forall i r r',
    results !! i = Some r -> results !! S i = Some r' ->
    _ref_frame r'.1 = _ref_frame r.1.
Proof.
  revert vo results. induction inputs as [|[gray depth_source] rest IH];
    intros vo results Hrun Hnormal.
  - injection Hrun as <-. repeat split; [constructor | intros i r r' Hi; discriminate Hi].
  - apply processFrames_cons in Hrun as (vo' & tr & later & Hpf & Hrest & ->).
    apply Forall_cons in Hnormal as [Hhead Hlater].
    destruct (normal_frame_step _ _ _ _ _ Hpf Hhead) as (Hpose & _ & Hflag).
    destruct (IH _ _ Hrest Hlater) as (IHpose & IHflags & IHref).
    rewrite final_state_cons. cbn [fst fmap list_fmap fold_left].
    split; [|split].
    + rewrite IHpose, Hpose. reflexivity.
    + constructor; [exact Hflag | exact IHflags].
    + intros [|i] r r' Hi Hsi; cbn in Hi, Hsi.
      * injection Hi as <-. destruct rest as [|[gray' depth'] rest'].
        { injection Hrest as <-. discriminate Hsi. }
        apply processFrames_cons in Hrest as (vo2 & tr2 & later2 & Hpf2 & _ & ->).
        injection Hsi as <-. cbn [fst].
        destruct (processFrame_members _ _ _ _ _ Hpf2) as (Hr & _).
        rewrite Hflag in Hr. exact Hr.
      * eapply IHref; eassumption.
Qed.


(** C7, as the code has it.  With [use-homography-initialization], a frame
    that is not the first runs the homography estimation once, between the
    frame before and the new current frame, at pyramid level
    [min (N - 1, 4)] where [N] is the number of levels of the frame: the
    coarsest level of a pyramid of at most five levels, level 4 of a
    deeper one; the images are to be downsampled [4 - level] times more.
    The homography kept is what [track] answers for the images of that
    level of the two frames, from the identity and with 8 iterations,
    scaled to the full size by [S = diag (16, 16, 1)] as
    [H = S * tracked * S^-1].  When the call returns, the two quotients by
    [fx] and their [asin] had a value, and the motion estimation starts
    from the rotation [roll = asin (H(1,2) / fx)],
    [pitch = - asin (H(0,2) / fx)], [yaw = - atan2 (H(1,0), H(0,0))]. *)
Theorem initial_rotation_level_and_angles (vo vo' : VisualOdometry) (gray : Image)
    (depth_source : DepthSource) (tr : list Event) :
  _use_homography_initialization vo = true ->
  distinct_frames vo ->
  processFrame vo gray depth_source = Some (vo', tr) ->
  2 <= _frame_count vo' ->
  let template := frames vo (_cur_frame vo) in
  let test :=
    prepareFrame (frames vo (_cur_frame vo')) gray (_fast_threshold vo) depth_source in
  let level := MIN (Int32.sub (getNumLevels template) 1) 4 in
  let ref_level := getLevel template level in
  let target_level := getLevel test level in
  let tracked :=
    track
      (setTestImage
         (setTemplateImage ihe_new (_raw_gray ref_level) (_width ref_level)
            (_height ref_level) (_raw_gray_stride ref_level) (Int32.sub 4 level))
         (_raw_gray target_level) (_width target_level) (_height target_level)
         (_raw_gray_stride target_level) (Int32.sub 4 level))
      m3_Identity 8 in
  let S := m3_set (m3_times_scalar m3_Identity (scalar_of_int 16)) 2 2 (scalar_of_int 1) in
  let H := m3_mul (m3_mul S tracked) (m3_inverse S) in
  let fx := cam_fx (_params vo) in
  rotations tr =
    [EvInitialRotation (_cur_frame vo) (_cur_frame vo') level (Int32.sub 4 level)] /\
  initial_homography_est (_p vo') = H /\
  exists roll_sine roll pitch_sine pitch_asin,
    scalar_div (m3_get H 1 2) fx = Some roll_sine /\
    scalar_asin roll_sine = Some roll /\
    scalar_div (m3_get H 0 2) fx = Some pitch_sine /\
    scalar_asin pitch_sine = Some pitch_asin /\
    let pitch := scalar_neg pitch_asin in
    let yaw := scalar_neg (scalar_atan2 (m3_get H 1 0) (m3_get H 0 0)) in
    exists valid n rest,
      estimates tr =
        EvEstimateMotion (_ref_frame vo') (_cur_frame vo')
          (iso_rotate (iso_inverse (ref_to_prev_at_start vo)) (_rpy_to_quat roll pitch yaw))
          valid n :: rest.
Proof.
  intros Huse (Hrp & Hrc & Hpc) Hpf Hcount. cbv zeta.
  destruct (processFrame_members _ _ _ _ _ Hpf) as (_ & _ & Hcur & _).
  destruct (rotateFrames_pointers vo)
    as (_ & _ & Hc & _ & _ & _ & _ & Hfr & _ & _ & Hth & _).
  apply processFrame_estimates in Hpf as (q & rot & Hpath & Hrots & _ & Hrot).
  apply Z.ltb_ge in Hcount as Hnot. rewrite Hnot in Hrot.
  unfold rotation_path in Hrot. rewrite Huse in Hrot. cbv zeta in Hrot.
  rewrite !detectFeatures_frames in Hrot. rewrite Hc, Hfr, Hth, <- Hcur in Hrot.
  rewrite decide_False in Hrot
    by (rewrite Hcur; destruct (_change_reference_frames vo); congruence).
  rewrite decide_True in Hrot by reflexivity.
  destruct Hrot as (-> & Hq & Hscaled).
  unfold tracked_homography, full_size_scale in Hscaled.
  split; [exact Hrots|]. split; [exact Hscaled|].
  rewrite Hscaled in Hq. unfold rotation_from_homography in Hq.
  apply bind_Some in Hq as (roll_sine & Hroll_sine & Hq).
  apply bind_Some in Hq as (roll & Hroll & Hq).
  apply bind_Some in Hq as (pitch_sine & Hpitch_sine & Hq).
  apply bind_Some in Hq as (pitch_asin & Hpitch_asin & Hq).
  injection Hq as Hq.
  exists roll_sine, roll, pitch_sine, pitch_asin.
  split; [exact Hroll_sine|]. split; [exact Hroll|].
  split; [exact Hpitch_sine|]. split; [exact Hpitch_asin|].
  rewrite Hq.
  destruct Hpath as [Hlt | | | | ]; [lia | eauto | | | ].
  - unfold ref_to_prev_at_start.
    match goal with Hf : _change_reference_frames vo = true |- _ => rewrite Hf end.
    eauto.
  - unfold ref_to_prev_at_start.
    match goal with Hf : _change_reference_frames vo = false |- _ => rewrite Hf end.
    eauto.
  - unfold ref_to_prev_at_start.
    match goal with Hf : _change_reference_frames vo = false |- _ => rewrite Hf end.
    eauto.
Qed.

(** C2, as the code has it.  With the adaptive threshold enabled, every
    call that returns moves the FAST threshold by
    [target = (W * H) / target_pixels_per_feature] (integer division),
    [err = detected - target], [threshold += (int) (err * gain)] (the
    product is a [double] and the cast drops its fraction, toward zero),
    clamped to [[_fast_threshold_min, _fast_threshold_max]], which the
    constructor sets to [[5, 70]]. *)
Theorem adaptive_threshold_truncates (vo vo' : VisualOdometry) (gray : Image)
    (depth_source : DepthSource) (tr : list Event) :
  _use_adaptive_threshold vo = true ->
  processFrame vo gray depth_source = Some (vo', tr) ->
  let detected :=
    getNumDetectedKeypoints
      (prepareFrame (frames vo (_cur_frame vo')) gray (_fast_threshold vo) depth_source) in
  exists target adjustment,
    Int32.div (Int32.mul (cam_width (_params vo)) (cam_height (_params vo)))
      (_target_pixels_per_feature vo) = Some target /\
    Double.to_int
      (Double.mul (Double.of_int (Int32.sub detected target))
         (_fast_threshold_adaptive_gain vo)) = Some adjustment /\
    _fast_threshold vo' =
      clamp (Int32.add (_fast_threshold vo) adjustment)
        (_fast_threshold_min vo) (_fast_threshold_max vo) /\
    (_fast_threshold_min vo = 5 -> _fast_threshold_max vo = 70 ->
     5 <= _fast_threshold vo' <= 70).
Proof.
  intros Hadaptive Hpf. cbv zeta.
  destruct (processFrame_members _ _ _ _ _ Hpf) as (_ & _ & Hcur & _ & _ & Hadapt).
  destruct (rotateFrames_pointers vo)
    as (_ & _ & Hc & _ & _ & _ & _ & Hfr & _ & _ & Hth & Hset).
  remember (rotateFrames vo) as vr eqn:Hvr. clear Hvr.
  unfold settings in Hset. injection Hset as Hs1 Hs2 Hs3 Hs4 Hs5 Hs6 Hs7 Hs8.
  rewrite Hcur, <- Hc, <- Hfr, <- Hth, <- Hs1, <- Hs3, <- Hs6, <- Hs7, <- Hs8.
  rewrite <- Hs5 in Hadaptive. rewrite <- Hs1 in Hadapt.
  clear Hc Hfr Hth Hs1 Hs2 Hs3 Hs4 Hs5 Hs6 Hs7 Hs8.
  apply adaptThreshold_inv in Hadapt as (threshold & Heq & Hupdate).
  apply (f_equal _fast_threshold) in Heq. cbn [set_fast_threshold _fast_threshold] in Heq.
  subst threshold.
  change (_use_adaptive_threshold (detectFeatures vr gray depth_source))
    with (_use_adaptive_threshold vr) in Hupdate.
  rewrite Hadaptive in Hupdate. destruct Hupdate as (adj & Hadj & Hthreshold).
  unfold thresh_adjustment in Hadj.
  change (_target_pixels_per_feature (detectFeatures vr gray depth_source))
    with (_target_pixels_per_feature vr) in Hadj.
  destruct (Int32.div _ _) as [target|] eqn:Hdiv; [|discriminate Hadj].
  cbn [mbind option_bind] in Hadj.
  rewrite detectFeatures_frames in Hadj.
  change (_cur_frame (detectFeatures vr gray depth_source)) with (_cur_frame vr) in Hadj.
  rewrite decide_True in Hadj by reflexivity.
  exists target, adj. split; [reflexivity|]. split; [exact Hadj|].
  split; [exact Hthreshold|].
  intros Hmin Hmax. rewrite Hthreshold.
  change (_fast_threshold_min (detectFeatures vr gray depth_source))
    with (_fast_threshold_min vr).
  change (_fast_threshold_max (detectFeatures vr gray depth_source))
    with (_fast_threshold_max vr).
  rewrite Hmin, Hmax. apply clamp_bounds. lia.
Qed.

End StateMachine.

(** ** The properties on the frames of the walk *)

Example constructed_driver : VisualOdometry_new Scene.camera ∅ = Some (Scene.fresh, []).
Proof. vm_compute. reflexivity. Qed.



(** C1 as stated fails: the third frame of the walk matches the reference
    frame with 50 inliers, fewer than the threshold of 150, and the pose
    moves from [(1, 0, 0)] to [(3, 0, 0)]. *)
Lemma reanchor_keeps_pose_counterexample :
  processFrame (Scene.after [Scene.frame1; Scene.frame2]) Scene.frame3 tt
    = Some (Scene.step (Scene.after [Scene.frame1; Scene.frame2]) Scene.frame3) /\
  2 <= _frame_count (Scene.after [Scene.frame1; Scene.frame2]) /\
  In (EvEstimateMotion FrameB FrameC (1, 0, 0) true 50)
     (Scene.step (Scene.after [Scene.frame1; Scene.frame2]) Scene.frame3).2 /\
  50 < _ref_frame_change_threshold (Scene.after [Scene.frame1; Scene.frame2]) /\
  pose (_p (Scene.after [Scene.frame1; Scene.frame2])) = (1, 0, 0) /\
  _change_reference_frames
    (Scene.step (Scene.after [Scene.frame1; Scene.frame2]) Scene.frame3).1 = true /\
  pose (_p (Scene.step (Scene.after [Scene.frame1; Scene.frame2]) Scene.frame3).1)
    <> pose (_p (Scene.after [Scene.frame1; Scene.frame2])).
Proof.
  split; [vm_compute; reflexivity|].
  split; [vm_compute; discriminate|].
  split; [vm_compute; tauto|].
  split; [vm_compute; reflexivity|].
  split; [vm_compute; reflexivity|].
  split; [vm_compute; reflexivity|].
  vm_compute. discriminate.
Qed.

Lemma reanchor_sets_flag_witness :
  pose (_p (Scene.step (Scene.after [Scene.frame1; Scene.frame2]) Scene.frame3).1)
    = (3, 0, 0) /\
  _change_reference_frames
    (Scene.step (Scene.after [Scene.frame1; Scene.frame2]) Scene.frame3).1 = true.
Proof.
  destruct (reanchor_sets_flag (Scene.after [Scene.frame1; Scene.frame2])
              (Scene.step (Scene.after [Scene.frame1; Scene.frame2]) Scene.frame3).1
              Scene.frame3 tt
              (Scene.step (Scene.after [Scene.frame1; Scene.frame2]) Scene.frame3).2)
    as (_ & Hlow).
  - vm_compute. reflexivity.
  - destruct (Hlow FrameB FrameC (1, 0, 0) 50) as (Hpose & Hflag).
    + vm_compute. tauto.
    + vm_compute. reflexivity.
    + split; [rewrite Hpose; vm_compute; reflexivity | exact Hflag].
Defined.

Lemma fallback_accumulates_and_sets_flag_witness :
  pose (_p (Scene.step
              (Scene.after [Scene.frame1; Scene.frame2; Scene.frame3; Scene.frame4;
                            Scene.frame5])
              Scene.frame6).1) = (3, 2, 1) /\
  _change_reference_frames
    (Scene.step
       (Scene.after [Scene.frame1; Scene.frame2; Scene.frame3; Scene.frame4;
                     Scene.frame5])
       Scene.frame6).1 = true.
Proof.
  destruct (fallback_accumulates_and_sets_flag
              (Scene.after [Scene.frame1; Scene.frame2; Scene.frame3; Scene.frame4;
                            Scene.frame5])
              (Scene.step
                 (Scene.after [Scene.frame1; Scene.frame2; Scene.frame3; Scene.frame4;
                               Scene.frame5])
                 Scene.frame6).1
              Scene.frame6 tt
              (Scene.step
                 (Scene.after [Scene.frame1; Scene.frame2; Scene.frame3; Scene.frame4;
                               Scene.frame5])
                 Scene.frame6).2
              FrameB FrameA FrameC FrameA (0, 0, 1) (0, 0, 0) 0 170)
    as (_ & _ & _ & _ & _ & Hpose & Hflag).
  - vm_compute. reflexivity.
  - vm_compute. reflexivity.
  - split; [rewrite Hpose; vm_compute; reflexivity | exact Hflag].
Defined.

Lemma no_fallback_after_reference_change_witness :
  (length (estimates
             (Scene.step (Scene.after [Scene.frame1; Scene.frame2; Scene.frame3])
                Scene.frame4).2) <= 1)%nat.
Proof.
  destruct (no_fallback_after_reference_change
              (Scene.after [Scene.frame1; Scene.frame2; Scene.frame3])
              (Scene.step (Scene.after [Scene.frame1; Scene.frame2; Scene.frame3])
                 Scene.frame4).1
              Scene.frame4 tt
              (Scene.step (Scene.after [Scene.frame1; Scene.frame2; Scene.frame3])
                 Scene.frame4).2)
    as (Hlength & _).
  - vm_compute. reflexivity.
  - vm_compute. reflexivity.
  - exact Hlength.
Defined.

Lemma reference_promoted_on_next_frame_witness :
  _ref_frame (Scene.step (Scene.after [Scene.frame1; Scene.frame2; Scene.frame3])
                Scene.frame4).1
  = _cur_frame (Scene.after [Scene.frame1; Scene.frame2; Scene.frame3]) /\
  ref_to_prev_frame
    (_p (rotateFrames (Scene.after [Scene.frame1; Scene.frame2; Scene.frame3])))
  = (0, 0, 0).
Proof.
  destruct (reference_promoted_on_next_frame
              (Scene.after [Scene.frame1; Scene.frame2])
              (Scene.after [Scene.frame1; Scene.frame2; Scene.frame3])
              (Scene.step (Scene.after [Scene.frame1; Scene.frame2; Scene.frame3])
                 Scene.frame4).1
              Scene.frame3 Scene.frame4 tt tt
              (Scene.step (Scene.after [Scene.frame1; Scene.frame2]) Scene.frame3).2
              (Scene.step (Scene.after [Scene.frame1; Scene.frame2; Scene.frame3])
                 Scene.frame4).2)
    as (_ & Href & _ & _ & _ & Hidentity & _).
  - vm_compute. reflexivity.
  - vm_compute. reflexivity.
  - vm_compute. reflexivity.
  - split; [exact Href | exact Hidentity].
Defined.

Lemma normal_frames_compose_pose_witness :
  pose (_p (Scene.after [Scene.frame1; Scene.frame2; Scene.frame2b])) = (2, 0, 0).
Proof.
  destruct (normal_frames_compose_pose (Scene.after [Scene.frame1])
              [(Scene.frame2, tt); (Scene.frame2b, tt)]
              [Scene.step (Scene.after [Scene.frame1]) Scene.frame2;
               Scene.step (Scene.after [Scene.frame1; Scene.frame2]) Scene.frame2b])
    as (Hpose & _).
  - vm_compute. reflexivity.
  - repeat constructor.
    + exists FrameB, FrameA, (0, 0, 0), 200. split; [vm_compute; reflexivity|].
      vm_compute. discriminate.
    + exists FrameB, FrameC, (1, 0, 0), 160. split; [vm_compute; reflexivity|].
      vm_compute. discriminate.
  - transitivity
      (pose (_p (final_state (Scene.after [Scene.frame1])
                   [Scene.step (Scene.after [Scene.frame1]) Scene.frame2;
                    Scene.step (Scene.after [Scene.frame1; Scene.frame2])
                      Scene.frame2b]))).
    + vm_compute. reflexivity.
    + rewrite Hpose. vm_compute. reflexivity.
Defined.

(** C7 as stated fails: the frames of the walk have three pyramid levels,
    0 to 2; the homography of the second frame is run at level 2, the
    coarsest, while the coarsest-but-one is level 1. *)
Lemma coarsest_but_one_counterexample :
  processFrame (Scene.after [Scene.frame1]) Scene.frame2 tt
    = Some (Scene.step (Scene.after [Scene.frame1]) Scene.frame2) /\
  _use_homography_initialization (Scene.after [Scene.frame1]) = true /\
  getNumLevels (frames (Scene.after [Scene.frame1]) FrameB) = 3 /\
  getNumLevels (frames (Scene.step (Scene.after [Scene.frame1]) Scene.frame2).1 FrameA) = 3 /\
  rotations (Scene.step (Scene.after [Scene.frame1]) Scene.frame2).2
    = [EvInitialRotation FrameB FrameA 2 2] /\
  2 <> coarsest_but_one 3.
Proof.
  split; [vm_compute; reflexivity|].
  split; [vm_compute; reflexivity|].
  split; [vm_compute; reflexivity|].
  split; [vm_compute; reflexivity|].
  split; [vm_compute; reflexivity|].
  vm_compute. discriminate.
Qed.

Lemma initial_rotation_level_and_angles_witness :
  rotations (Scene.step (Scene.after [Scene.frame1]) Scene.frame2).2
    = [EvInitialRotation FrameB FrameA 2 2].
Proof.
  destruct (initial_rotation_level_and_angles (Scene.after [Scene.frame1])
              (Scene.step (Scene.after [Scene.frame1]) Scene.frame2).1
              Scene.frame2 tt
              (Scene.step (Scene.after [Scene.frame1]) Scene.frame2).2)
    as (Hrotations & _).
  - vm_compute. reflexivity.
  - vm_compute. repeat split; discriminate.
  - vm_compute. reflexivity.
  - vm_compute. discriminate.
  - rewrite Hrotations. vm_compute. reflexivity.
Defined.

(** C2 as stated fails: the second frame of the walk shows 1378 keypoints
    where the target is 640 * 480 / 250 = 1228; the error of 150 times the
    gain 0.005 is 0.75, which the rule of the specification rounds to 1
    (threshold 21) and the cast of the code cuts to 0 (threshold 20). *)
Lemma threshold_rounding_counterexample :
  processFrame (Scene.after [Scene.frame1]) Scene.frame2 tt
    = Some (Scene.step (Scene.after [Scene.frame1]) Scene.frame2) /\
  _use_adaptive_threshold (Scene.after [Scene.frame1]) = true /\
  _fast_threshold (Scene.after [Scene.frame1]) = 20 /\
  getNumDetectedKeypoints
    (frames (Scene.step (Scene.after [Scene.frame1]) Scene.frame2).1 FrameA) = 1378 /\
  spec_threshold_update 640 480 250 1378 Scene.gain_0_005 20 = Some 21 /\
  _fast_threshold (Scene.step (Scene.after [Scene.frame1]) Scene.frame2).1 = 20.
Proof.
  split; [vm_compute; reflexivity|].
  split; [vm_compute; reflexivity|].
  split; [vm_compute; reflexivity|].
  split; [vm_compute; reflexivity|].
  split; [vm_compute; reflexivity|].
  vm_compute. reflexivity.
Qed.

Lemma adaptive_threshold_truncates_witness :
  _fast_threshold (Scene.step (Scene.after [Scene.frame1; Scene.frame2]) Scene.frame3).1
  = 21.
Proof.
  destruct (adaptive_threshold_truncates (Scene.after [Scene.frame1; Scene.frame2])
              (Scene.step (Scene.after [Scene.frame1; Scene.frame2]) Scene.frame3).1
              Scene.frame3 tt
              (Scene.step (Scene.after [Scene.frame1; Scene.frame2]) Scene.frame3).2)
    as (target & adjustment & Htarget & Hadjustment & Hthreshold & _).
  - vm_compute. reflexivity.
  - vm_compute. reflexivity.
  - vm_compute in Htarget. injection Htarget as <-.
    vm_compute in Hadjustment. injection Hadjustment as <-.
    rewrite Hthreshold. vm_compute. reflexivity.
Defined.

(** * Further properties of the code *)

(** ** [clamp] *)

(** X1.  For bounds in order, [clamp] returns a value within them, leaves
    a value within them as it is, and clamping twice is clamping once. *)
Theorem clamp_within_and_idempotent (val minval maxval : Z) :
  minval <= maxval ->
  minval <= clamp val minval maxval <= maxval /\
  (minval <= val <= maxval -> clamp val minval maxval = val) /\
  clamp (clamp val minval maxval) minval maxval = clamp val minval maxval.
Proof.
  intros Hle. split; [apply clamp_bounds; exact Hle|].
  unfold clamp. split.
  - intros Hin. destruct (Z.gtb_spec val maxval); [lia|].
    destruct (Z.ltb_spec val minval); [lia | reflexivity].
  - destruct (Z.gtb_spec val maxval).
    + destruct (Z.gtb_spec maxval maxval); [lia|].
      destruct (Z.ltb_spec maxval minval); [lia | reflexivity].
    + destruct (Z.ltb_spec val minval).
      * destruct (Z.gtb_spec minval maxval); [lia|].
        destruct (Z.ltb_spec minval minval); [lia | reflexivity].
      * destruct (Z.gtb_spec val maxval); [lia|].
        destruct (Z.ltb_spec val minval); [lia | reflexivity].
Qed.

Lemma clamp_within_and_idempotent_witness :
  5 <= clamp 93 5 70 <= 70 /\
  (5 <= 93 <= 70 -> clamp 93 5 70 = 93) /\
  clamp (clamp 93 5 70) 5 70 = clamp 93 5 70.
Proof. apply clamp_within_and_idempotent. lia. Defined.

(** ** [validateOptions] *)

(** X2.  [validateOptions] prints nothing exactly when every key of the
    options is a key of the defaults. *)
Theorem validateOptions_silent_iff_known (options defaults : VisualOdometryOptions) :
  validateOptions options defaults = [] <->
  forall key, is_Some (options !! key) -> is_Some (defaults !! key).
Proof.
  split.
  - intros Hnil key Hin.
    destruct (defaults !! key) as [d|] eqn:Hd; [eauto|].
    assert (Hwarn : key ∈ validateOptions options defaults)
      by (apply validateOptions_spec; auto).
    rewrite Hnil in Hwarn. inversion Hwarn.
  - intros Hknown.
    destruct (validateOptions options defaults) as [|key rest] eqn:Hv; [reflexivity|].
    assert (Hwarn : key ∈ validateOptions options defaults)
      by (rewrite Hv; left).
    apply validateOptions_spec in Hwarn as [Hin Hnone].
    apply Hknown in Hin as [d Hd]. congruence.
Qed.

(** X3.  Adding an entry to the options: under a key the defaults do not
    have and the options did not have, it adds the warning for that key
    and no other; under a key of the defaults, whatever the value, the
    warnings are the same. *)
Theorem validateOptions_insert (options defaults : VisualOdometryOptions)
    (key value : string) :
  (defaults !! key = None -> options !! key = None ->
   validateOptions (<[key := value]> options) defaults
     ≡ₚ key :: validateOptions options defaults) /\
  (is_Some (defaults !! key) ->
   validateOptions (<[key := value]> options) defaults
     = validateOptions options defaults).
Proof.
  unfold validateOptions. split.
  - intros Hunknown Hfresh.
    rewrite map_filter_insert_True by exact Hunknown.
    rewrite map_to_list_insert; [reflexivity|].
    apply map_lookup_filter_None. left. exact Hfresh.
  - intros [d Hd].
    rewrite map_filter_insert_False by (cbn; congruence).
    rewrite map_filter_delete, delete_id; [reflexivity|].
    apply map_lookup_filter_None. right. intros v _. cbn. congruence.
Qed.

Lemma validateOptions_insert_witness :
  validateOptions (<["verbose" := "1"]> (<["fast-threshold" := "7"]> ∅)) getDefaultOptions
    ≡ₚ "verbose" :: validateOptions (<["fast-threshold" := "7"]> ∅) getDefaultOptions /\
  validateOptions (<["bucket-width" := "64"]> Scene.some_options) getDefaultOptions
    = validateOptions Scene.some_options getDefaultOptions.
Proof.
  destruct (validateOptions_insert (<["fast-threshold" := "7"]> ∅) getDefaultOptions
              "verbose" "1") as [Hunknown _].
  destruct (validateOptions_insert Scene.some_options getDefaultOptions
              "bucket-width" "64") as [_ Hknown].
  split.
  - apply Hunknown; reflexivity.
  - apply Hknown. exists "80". reflexivity.
Defined.

(** ** The pyramid level *)

(** X4.  The keypoint bounds of a constructed level leave room for a
    keypoint exactly when the level is at least [2 * fws + 2] wide and
    high, [fws] being the feature window size: a narrower or lower level
    has an empty keypoint region. *)
Theorem keypoint_region_nonempty_iff
    (round_up bufsize dstride : Z -> Z -> Z) (W H level_num fws : Z) :
  Int32.min_signed <= W - fws - 2 -> W - fws <= Int32.max_signed ->
  Int32.min_signed <= H - fws - 2 -> H - fws <= Int32.max_signed ->
  let level := PyramidLevel_new round_up bufsize dstride W H level_num fws in
  (_keypoint_min_x level <= _keypoint_max_x level /\
   _keypoint_min_y level <= _keypoint_max_y level) <->
  (2 * fws + 2 <= W /\ 2 * fws + 2 <= H).
Proof.
  intros HW1 HW2 HH1 HH2. cbv zeta.
  cbn [PyramidLevel_new _keypoint_min_x _keypoint_max_x _keypoint_min_y _keypoint_max_y].
  unfold Int32.sub.
  rewrite (wrap_in_range (W - fws)) by lia.
  rewrite (wrap_in_range (H - fws)) by lia.
  rewrite (wrap_in_range (W - fws - 2)) by lia.
  rewrite (wrap_in_range (H - fws - 2)) by lia.
  lia.
Qed.

Lemma keypoint_region_nonempty_iff_witness :
  (_keypoint_min_x (PyramidLevel_new (fun w _ => w) (fun _ _ => 0) (fun _ _ => 96) 10 7 6 9)
   <= _keypoint_max_x
        (PyramidLevel_new (fun w _ => w) (fun _ _ => 0) (fun _ _ => 96) 10 7 6 9) /\
   _keypoint_min_y (PyramidLevel_new (fun w _ => w) (fun _ _ => 0) (fun _ _ => 96) 10 7 6 9)
   <= _keypoint_max_y
        (PyramidLevel_new (fun w _ => w) (fun _ _ => 0) (fun _ _ => 96) 10 7 6 9)) <->
  (2 * 9 + 2 <= 10 /\ 2 * 9 + 2 <= 7).
Proof.
  apply (keypoint_region_nonempty_iff (fun w _ => w) (fun _ _ => 0) (fun _ _ => 96)
           10 7 6 9);
    unfold Int32.min_signed, Int32.max_signed; lia.
Defined.


(** ** More on [processFrame] *)

Section Calls.

Context {GEO : Geometry} {FRM : FrameAPI} {EST : EstimatorAPI} {HOM : HomographyAPI}.

(** The threshold after a call with the adaptive threshold enabled. *)
Lemma processFrame_threshold (vo vo' : VisualOdometry) (gray : Image)
    (depth_source : DepthSource) (tr : list Event) :
  _use_adaptive_threshold vo = true ->
  processFrame vo gray depth_source = Some (vo', tr) ->
  exists target adjustment,
    Int32.div (Int32.mul (cam_width (_params vo)) (cam_height (_params vo)))
      (_target_pixels_per_feature vo) = Some target /\
    Double.to_int
      (Double.mul
         (Double.of_int
            (Int32.sub
               (getNumDetectedKeypoints
                  (prepareFrame (frames vo (_cur_frame vo')) gray (_fast_threshold vo)
                     depth_source))
               target))
         (_fast_threshold_adaptive_gain vo)) = Some adjustment /\
    _fast_threshold vo' =
      clamp (Int32.add (_fast_threshold vo) adjustment)
        (_fast_threshold_min vo) (_fast_threshold_max vo).
Proof.
  intros Hadaptive Hpf.
  destruct (processFrame_members _ _ _ _ _ Hpf) as (_ & _ & Hcur & _ & _ & Hadapt).
  destruct (rotateFrames_pointers vo)
    as (_ & _ & Hc & _ & _ & _ & _ & Hfr & _ & _ & Hth & Hset).
  remember (rotateFrames vo) as vr eqn:Hvr. clear Hvr.
  unfold settings in Hset. injection Hset as Hs1 Hs2 Hs3 Hs4 Hs5 Hs6 Hs7 Hs8.
  rewrite Hcur, <- Hc, <- Hfr, <- Hth, <- Hs1, <- Hs3, <- Hs6, <- Hs7, <- Hs8.
  rewrite <- Hs5 in Hadaptive. rewrite <- Hs1 in Hadapt.
  clear Hc Hfr Hth Hs1 Hs2 Hs3 Hs4 Hs5 Hs6 Hs7 Hs8.
  apply adaptThreshold_inv in Hadapt as (threshold & Heq & Hupdate).
  apply (f_equal _fast_threshold) in Heq. cbn [set_fast_threshold _fast_threshold] in Heq.
  subst threshold.
  change (_use_adaptive_threshold (detectFeatures vr gray depth_source))
    with (_use_adaptive_threshold vr) in Hupdate.
  rewrite Hadaptive in Hupdate. destruct Hupdate as (adj & Hadj & Hthreshold).
  unfold thresh_adjustment in Hadj.
  change (_target_pixels_per_feature (detectFeatures vr gray depth_source))
    with (_target_pixels_per_feature vr) in Hadj.
  destruct (Int32.div _ _) as [target|] eqn:Hdiv; [|discriminate Hadj].
  cbn [mbind option_bind] in Hadj.
  rewrite detectFeatures_frames in Hadj.
  change (_cur_frame (detectFeatures vr gray depth_source)) with (_cur_frame vr) in Hadj.
  rewrite decide_True in Hadj by reflexivity.
  exists target, adj. split; [reflexivity|]. split; [exact Hadj|]. exact Hthreshold.
Qed.


(** X7.  No call changes a setting: the camera parameters, the inlier
    threshold for keeping the reference frame, the target pixels per
    feature, the two switches, the gain and the two bounds of the FAST
    threshold are after any sequence of frames what they were before. *)
Theorem settings_never_change (vo : VisualOdometry)
    (inputs : list (Image * DepthSource))
    (results : list (VisualOdometry * list Event)) :
  processFrames vo inputs = Some results ->
  Forall (fun r => settings r.1 = settings vo) results.
Proof.
  revert vo results. induction inputs as [|[gray depth_source] rest IH];
    intros vo results Hrun.
  - injection Hrun as <-. constructor.
  - apply processFrames_cons in Hrun as (vo' & tr & later & Hpf & Hrest & ->).
    destruct (processFrame_members _ _ _ _ _ Hpf) as (_ & _ & _ & _ & Hset & _).
    constructor; [exact Hset|].
    specialize (IH _ _ Hrest). rewrite <- Hset.
    exact IH.
Qed.


(** X8.  For a driver as constructed, whatever the options: with the
    adaptive threshold enabled, the FAST threshold is within [[5, 70]]
    after every frame (the threshold of the options itself is not clamped:
    the first frame is detected with it as it is). *)
Theorem constructed_threshold_within_5_70 {OPT : OptionParsers}
    (params : CameraIntrinsicsParameters) (options : VisualOdometryOptions)
    (vo : VisualOdometry) (warnings : list string)
    (inputs : list (Image * DepthSource))
    (results : list (VisualOdometry * list Event)) :
  VisualOdometry_new params options = Some (vo, warnings) ->
  _use_adaptive_threshold vo = true ->
  processFrames vo inputs = Some results ->
  Forall (fun r => 5 <= _fast_threshold r.1 <= 70) results /\
  (forall r, head results = Some r ->
             head r.2 = Some (EvPrepareFrame (_cur_frame r.1) (_fast_threshold vo))).
Proof.
  intros Hnew Hadaptive Hrun.
  apply constructed_driver_members in Hnew as (_ & _ & _ & _ & _ & Hmin & Hmax).
  split.
  - clear warnings. revert vo results Hadaptive Hmin Hmax Hrun.
    induction inputs as [|[gray depth_source] rest IH];
      intros vo results Hadaptive Hmin Hmax Hrun.
    + injection Hrun as <-. constructor.
    + apply processFrames_cons in Hrun as (vo' & tr & later & Hpf & Hrest & ->).
      destruct (processFrame_members _ _ _ _ _ Hpf) as (_ & _ & _ & _ & Hset & _).
      unfold settings in Hset. injection Hset as _ _ _ _ Hs5 _ Hs7 Hs8.
      destruct (processFrame_threshold _ _ _ _ _ Hadaptive Hpf)
        as (target & adj & _ & _ & Hthr).
      constructor.
      * cbn [fst]. rewrite Hthr, Hmin, Hmax. apply clamp_bounds. lia.
      * apply (IH vo'); congruence.
  - intros r Hhead. destruct inputs as [|[gray depth_source] rest].
    + injection Hrun as <-. discriminate Hhead.
    + apply processFrames_cons in Hrun as (vo' & tr & later & Hpf & _ & ->).
      injection Hhead as <-. cbn [fst snd].
      apply processFrame_estimates in Hpf as (q & rot & _ & _ & -> & _).
      reflexivity.
Qed.

(** X9.  Every call counts its frame, and it runs the temporal matching
    exactly when the count it reaches is at least 2: a call makes no
    motion estimation if and only if the incremented frame count is below
    2. *)
Theorem matching_skipped_iff_count_below_2 (vo vo' : VisualOdometry) (gray : Image)
    (depth_source : DepthSource) (tr : list Event) :
  processFrame vo gray depth_source = Some (vo', tr) ->
  _frame_count vo' = Int32.add (_frame_count vo) 1 /\
  (estimates tr = [] <-> _frame_count vo' < 2).
Proof.
  intros Hpf.
  destruct (processFrame_members _ _ _ _ _ Hpf) as (_ & _ & _ & Hn & _).
  split; [exact Hn|].
  apply processFrame_estimates in Hpf as (q & rot & Hpath & _ & _ & _).
  destruct Hpath; split; intros Hx; try discriminate Hx; try reflexivity; lia.
Qed.

(** X10.  The three frame pointers of a constructed driver are pairwise
    different after every frame, and the frame a call prepares (and
    overwrites) is never the frame the preceding call prepared. *)
Theorem frame_pointers_stay_distinct {OPT : OptionParsers}
    (params : CameraIntrinsicsParameters) (options : VisualOdometryOptions)
    (vo : VisualOdometry) (warnings : list string)
    (inputs : list (Image * DepthSource))
    (results : list (VisualOdometry * list Event)) :
  VisualOdometry_new params options = Some (vo, warnings) ->
  processFrames vo inputs = Some results ->
  Forall (fun r => distinct_frames r.1) results /\
  forall i r r',
    results !! i = Some r -> results !! S i = Some r' ->
    _cur_frame r'.1 <> _cur_frame r.1.
Proof.
  intros Hnew Hrun.
  apply constructed_driver_members in Hnew as (Hdistinct & _).
  clear warnings. revert vo results Hdistinct Hrun.
  induction inputs as [|[gray depth_source] rest IH]; intros vo results Hdistinct Hrun.
  - injection Hrun as <-. split; [constructor | intros i r r' Hi; discriminate Hi].
  - apply processFrames_cons in Hrun as (vo' & tr & later & Hpf & Hrest & ->).
    pose proof (distinct_frames_preserved _ _ _ _ _ Hpf Hdistinct) as Hdistinct'.
    destruct (IH _ _ Hdistinct' Hrest) as (IHall & IHnext).
    split; [constructor; assumption|].
    intros [|i] r r' Hi Hsi; cbn in Hi, Hsi.
    + injection Hi as <-. destruct rest as [|[gray' depth'] rest'].
      { injection Hrest as <-. discriminate Hsi. }
      apply processFrames_cons in Hrest as (vo2 & tr2 & later2 & Hpf2 & _ & ->).
      injection Hsi as <-. cbn [fst].
      destruct (processFrame_members _ _ _ _ _ Hpf2) as (_ & _ & Hc & _).
      destruct Hdistinct' as (Hrp & Hrc & Hpc). rewrite Hc.
      destruct (_change_reference_frames vo'); congruence.
    + eapply IHnext; eassumption.
Qed.

(** X11.  If multiplying by the identity transform on the right changes
    nothing, every call, whatever its path, leaves
    [pose = pose before * motion_estimate] (the motion estimate is the
    identity where the pose is kept), so over any sequence of frames the
    pose is the pose before it times the ordered product of the motion
    estimates. *)
Theorem pose_is_product_of_motion_estimates (vo : VisualOdometry)
    (inputs : list (Image * DepthSource))
    (results : list (VisualOdometry * list Event)) :
  (forall x, iso_mul x iso_Identity = x) ->
  processFrames vo inputs = Some results ->
  pose (_p (final_state vo results)) =
    fold_left iso_mul ((fun r => motion_estimate (_p r.1)) <$> results) (pose (_p vo)).
Proof.
  intros Hid. revert vo results.
  induction inputs as [|[gray depth_source] rest IH]; intros vo results Hrun.
  - injection Hrun as <-. reflexivity.
  - apply processFrames_cons in Hrun as (vo' & tr & later & Hpf & Hrest & ->).
    rewrite final_state_cons. cbn [fst fmap list_fmap fold_left].
    rewrite (IH _ _ Hrest). f_equal.
    apply processFrame_estimates in Hpf as (q & rot & Hpath & _ & _ & _).
    destruct Hpath;
      repeat match goal with
      | Hm : motion_estimate (_p vo') = iso_Identity |- _ => rewrite Hm, Hid
      end; assumption.
Qed.

(** X12.  If the transforms form a group (the product is associative, the
    identity is neutral on the right, a transform times its inverse is the
    identity), then over a run of NORMAL frames entered with the
    change-reference flag down, [pose * ref_to_prev] does not change: as
    long as the reference frame is kept, the pose is the pose of the
    reference frame times the inverse of the current [ref_to_prev], and
    the error of the single estimates does not add up. *)
Theorem reference_pose_kept (vo : VisualOdometry)
    (inputs : list (Image * DepthSource))
    (results : list (VisualOdometry * list Event)) :
  (forall x y z, iso_mul (iso_mul x y) z = iso_mul x (iso_mul y z)) ->
  (forall x, iso_mul x iso_Identity = x) ->
  (forall x, iso_mul x (iso_inverse x) = iso_Identity) ->
  _change_reference_frames vo = false ->
  processFrames vo inputs = Some results ->
  Forall normal_frame results ->
  iso_mul (pose (_p (final_state vo results)))
          (ref_to_prev_frame (_p (final_state vo results)))
  = iso_mul (pose (_p vo)) (ref_to_prev_frame (_p vo)).
Proof.
  intros Hassoc Hid Hinv. revert vo results.
  induction inputs as [|[gray depth_source] rest IH]; intros vo results Hflag Hrun Hnormal.
  - injection Hrun as <-. reflexivity.
  - apply processFrames_cons in Hrun as (vo' & tr & later & Hpf & Hrest & ->).
    apply Forall_cons in Hnormal as [Hhead Hlater].
    destruct (normal_frame_step _ _ _ _ _ Hpf Hhead) as (Hpose & Hmotion & Hflag').
    rewrite final_state_cons. cbn [fst].
    rewrite (IH _ _ Hflag' Hrest Hlater).
    destruct Hhead as (ref & target & init & n & Hests & _). cbn [snd] in Hests.
    apply processFrame_estimates in Hpf as (q & rot & Hpath & _ & _ & _).
    rewrite Hests in Hpath.
    inversion Hpath as [ | ? ? Hm Hr2p | | | ]; subst.
    rewrite Hpose, Hm, Hr2p. unfold ref_to_prev_at_start. rewrite Hflag.
    rewrite !Hassoc, Hinv, Hid. reflexivity.
Qed.


(** X13.  The change-reference flag is down after a call exactly when the
    frame was NORMAL: one estimation was run, it succeeded, and it counted
    at least [_ref_frame_change_threshold] inliers.  After any other call,
    the first one included, the flag is up. *)
Theorem flag_down_iff_normal (vo vo' : VisualOdometry) (gray : Image)
    (depth_source : DepthSource) (tr : list Event) :
  processFrame vo gray depth_source = Some (vo', tr) ->
  _change_reference_frames vo' = false <-> normal_frame (vo', tr).
Proof.
  intros Hpf. split.
  - intros Hdown.
    apply processFrame_estimates in Hpf as (q & rot & Hpath & _ & _ & _).
    unfold normal_frame. cbn [fst snd].
    destruct Hpath as [ | ? ? ? ? ? Hflag | | | ]; try congruence.
    eexists _, _, _, _. split; [reflexivity|].
    rewrite Hflag in Hdown. apply Z.ltb_ge in Hdown. exact Hdown.
  - intros Hnormal. apply (normal_frame_step _ _ _ _ _ Hpf Hnormal).
Qed.

(** X14.  What a call asks of its collaborators, in order: first the
    preparation of the new current frame, with the FAST threshold from
    before the call (the adapted threshold is for the next frame); then at
    most one homography run; then no motion estimation, or one against the
    reference frame, or a failed one against the reference frame followed
    by one against the previous frame.  Every estimation targets the new
    current frame. *)
Theorem call_structure (vo vo' : VisualOdometry) (gray : Image)
    (depth_source : DepthSource) (tr : list Event) :
  processFrame vo gray depth_source = Some (vo', tr) ->
  tr = EvPrepareFrame (_cur_frame vo') (_fast_threshold vo)
         :: rotations tr ++ estimates tr /\
  (length (rotations tr) <= 1)%nat /\
  (estimates tr = [] \/
   (exists init valid n,
      estimates tr = [EvEstimateMotion (_ref_frame vo') (_cur_frame vo') init valid n]) \/
   (exists init1 n1 init2 valid2 n2,
      estimates tr = [EvEstimateMotion (_ref_frame vo') (_cur_frame vo') init1 false n1;
                      EvEstimateMotion (_prev_frame vo') (_cur_frame vo') init2 valid2 n2])).
Proof.
  intros Hpf.
  apply processFrame_estimates in Hpf as (q & rot & Hpath & Hrots & Htr & Hrot).
  subst rot. split; [exact Htr|]. split.
  - destruct (_frame_count vo' <? 2).
    + destruct Hrot as [-> _]. cbn. lia.
    + unfold rotation_path in Hrot.
      destruct (_use_homography_initialization vo).
      * destruct Hrot as [-> _]. cbn. lia.
      * destruct Hrot as [-> _]. cbn. lia.
  - destruct Hpath; eauto 10.
Qed.

(** X15.  With [use-homography-initialization] off, no call runs the
    homography estimation, and the motion estimation against the reference
    frame starts from the inverse of [ref_to_prev] rotated by the identity
    quaternion [(1, 0, 0, 0)]. *)
Theorem no_homography_when_disabled (vo vo' : VisualOdometry) (gray : Image)
    (depth_source : DepthSource) (tr : list Event) :
  _use_homography_initialization vo = false ->
  processFrame vo gray depth_source = Some (vo', tr) ->
  rotations tr = [] /\
  forall ev, head (estimates tr) = Some ev ->
    exists valid n,
      ev = EvEstimateMotion (_ref_frame vo') (_cur_frame vo')
             (iso_rotate (iso_inverse (ref_to_prev_at_start vo)) (quat_wxyz 1 0 0 0))
             valid n.
Proof.
  intros Hoff Hpf.
  apply processFrame_estimates in Hpf as (q & rot & Hpath & Hrots & _ & Hrot).
  subst rot.
  destruct (_frame_count vo' <? 2) eqn:Hcount.
  - destruct Hrot as [Hnil _]. split; [exact Hnil|].
    apply Z.ltb_lt in Hcount. destruct Hpath; try lia. intros ev Hev. discriminate Hev.
  - unfold rotation_path in Hrot. rewrite Hoff in Hrot. destruct Hrot as [Hnil ->].
    split; [exact Hnil|]. intros ev Hev.
    destruct Hpath as [ | | ? ? Hflag | ? ? Hflag | ? ? ? Hflag ];
      cbn in Hev; try discriminate Hev; injection Hev as <-;
      unfold ref_to_prev_at_start; try rewrite Hflag; eauto.
Qed.

(** X16.  [estimateInitialRotation] on frames of [N >= 1] pyramid levels
    asks for a level that exists, between 0 and [min (N - 1, 4)], and for
    as many further downsamplings as are missing to level 4.  It writes
    [_initial_rotation_pyramid_level] and the homography and no other
    member: frames, estimator, pose and the members the matching leaves
    alone are as before. *)
Theorem initial_rotation_level_exists (vo vo1 : VisualOdometry) (prev cur : frame_ptr)
    (q : Quaterniond) (evs : list Event) :
  1 <= getNumLevels (frames vo prev) <= Int32.max_signed ->
  estimateInitialRotation vo prev cur = Some (vo1, q, evs) ->
  (exists level downsample,
     evs = [EvInitialRotation prev cur level downsample] /\
     0 <= level <= 4 /\ level <= getNumLevels (frames vo prev) - 1 /\
     0 <= downsample /\ level + downsample = 4) /\
  frames vo1 = frames vo /\ _estimator vo1 = _estimator vo /\
  controls vo1 = controls vo /\
  _change_reference_frames vo1 = _change_reference_frames vo /\
  (pose (_p vo1), motion_estimate (_p vo1), ref_to_prev_frame (_p vo1))
    = (pose (_p vo), motion_estimate (_p vo), ref_to_prev_frame (_p vo)).
Proof.
  intros HN Hrot.
  apply estimateInitialRotation_inv in Hrot as (H & -> & _ & -> & _).
  split; [|repeat split].
  set (N := getNumLevels (frames vo prev)) in *.
  assert (Hsub : Int32.sub N 1 = N - 1).
  { unfold Int32.sub. apply wrap_in_range.
    unfold Int32.min_signed, Int32.max_signed in *. lia. }
  assert (Hlevel : 0 <= MIN (Int32.sub N 1) 4 <= 4 /\ MIN (Int32.sub N 1) 4 <= N - 1).
  { rewrite Hsub. unfold MIN. destruct (Z.ltb_spec (N - 1) 4); lia. }
  eexists _, _. split; [reflexivity|].
  assert (Hdown : Int32.sub 4 (MIN (Int32.sub N 1) 4) = 4 - MIN (Int32.sub N 1) 4).
  { unfold Int32.sub at 1. apply wrap_in_range.
    unfold Int32.min_signed, Int32.max_signed. lia. }
  rewrite Hdown. lia.
Qed.


End Calls.

(** ** The sign of the threshold adjustment *)

Lemma binary_round_aux_sign (s s' : bool) (mx ex : Z) (lx : location) (m : positive) (e : Z) :
  binary_round_aux Double.prec Double.emax s mx ex lx = S754_finite s' m e -> s' = s.
Proof.
  unfold binary_round_aux.
  destruct (shr_fexp _ _ _ _ _) as [mrs' e'].
  destruct (shr_fexp _ _ _ _ _) as [mrs'' e''].
  destruct (shr_m mrs''); try discriminate.
  destruct (Z.leb _ _); [|discriminate]. intros [= -> _ _]. reflexivity.
Qed.

Lemma of_int_finite_sign (z : Z) (s : bool) (m : positive) (e : Z) :
  Double.of_int z = S754_finite s m e -> z <> 0 /\ s = (z <? 0).
Proof.
  unfold Double.of_int, binary_normalize. destruct z as [|p|p]; [discriminate| |];
    unfold binary_round; destruct (shl_align _ _ _) as [mz ez];
    intros Hr; apply binary_round_aux_sign in Hr; subst s;
    (split; [discriminate | reflexivity]).
Qed.

Lemma mul_nonnegative_finite_sign (x g : double) (s : bool) (m : positive) (e : Z) :
  double_nonnegative g = true ->
  Double.mul x g = S754_finite s m e ->
  exists m0 e0, x = S754_finite s m0 e0.
Proof.
  intros Hg. unfold Double.mul, SFmul.
  destruct x as [sx|sx| |sx mx ex], g as [sg|sg| |sg mg eg]; try discriminate.
  cbn in Hg. destruct sg; [discriminate|].
  intros Hr. apply binary_round_aux_sign in Hr. rewrite xorb_false_r in Hr.
  subst s. eauto.
Qed.

Lemma to_int_sign (y : double) (z : Z) :
  Double.to_int y = Some z ->
  match y with
  | S754_finite false _ _ => 0 <= z
  | S754_finite true _ _ => z <= 0
  | _ => z = 0
  end.
Proof.
  unfold Double.to_int. destruct (Double.trunc y) as [t|] eqn:Ht; [|discriminate].
  destruct (Int32.in_range t); [|discriminate]. intros [= <-].
  destruct y as [sy|sy| |sy my ey]; cbn in Ht; try discriminate Ht.
  - injection Ht as <-. reflexivity.
  - injection Ht as <-.
    assert (Hpow : forall p, 0 < 2 ^ Zpos p) by (intros p; apply Z.pow_pos_nonneg; lia).
    destruct sy, ey as [|p|p]; cbn [cond_Zopp].
    + lia.
    + specialize (Hpow p). nia.
    + rewrite Z.quot_opp_l by (specialize (Hpow p); lia).
      pose proof (Z.quot_pos (Zpos my) (2 ^ Zpos p) ltac:(lia) (Hpow p)). lia.
    + lia.
    + specialize (Hpow p). nia.
    + apply Z.quot_pos; [lia | apply Hpow].
Qed.

Lemma adjustment_sign (err adjustment : Z) (gain : double) :
  double_nonnegative gain = true ->
  Double.to_int (Double.mul (Double.of_int err) gain) = Some adjustment ->
  (0 <= err -> 0 <= adjustment) /\ (err <= 0 -> adjustment <= 0).
Proof.
  intros Hgain Hcast. apply to_int_sign in Hcast.
  destruct (Double.mul (Double.of_int err) gain) as [sy|sy| |sy my ey] eqn:Hmul;
    try (subst adjustment; lia).
  apply (mul_nonnegative_finite_sign _ _ _ _ _ Hgain) in Hmul as (m0 & e0 & Hx).
  apply of_int_finite_sign in Hx as [Hne ->].
  destruct (Z.ltb_spec err 0); lia.
Qed.

Section Controller.

Context {GEO : Geometry} {FRM : FrameAPI} {EST : EstimatorAPI} {HOM : HomographyAPI}.


End Controller.

(** ** The further properties on the frames of the walk *)

Lemma scene_right_identity (x : Z * Z * Z) : Scene.translate x (0, 0, 0) = x.
Proof. destruct x as [[a b] c]. unfold Scene.translate. cbn. rewrite !Z.add_0_r. reflexivity. Qed.

Lemma scene_associative (x y z : Z * Z * Z) :
  Scene.translate (Scene.translate x y) z = Scene.translate x (Scene.translate y z).
Proof.
  destruct x as [[a b] c], y as [[a' b'] c'], z as [[a'' b''] c''].
  unfold Scene.translate. cbn. rewrite !Z.add_assoc. reflexivity.
Qed.

Lemma scene_right_inverse (x : Z * Z * Z) : Scene.translate x (Scene.back x) = (0, 0, 0).
Proof.
  destruct x as [[a b] c]. unfold Scene.translate, Scene.back. cbn.
  rewrite !Z.add_opp_diag_r. reflexivity.
Qed.


(** With a focal length of 0 the first call returns and the second does
    not: the quotient [H(1,2) / fx] of line 164 has no value. *)
Example zero_focal_length_stops_second_frame :
  _use_adaptive_threshold Scene.unfocused_driver = false /\
  _use_homography_initialization Scene.unfocused_driver = true /\
  is_Some (processFrame Scene.unfocused_driver Scene.frame1 tt) /\
  processFrame (Scene.step Scene.unfocused_driver Scene.frame1).1 Scene.frame2 tt = None.
Proof.
  split; [vm_compute; reflexivity|].
  split; [vm_compute; reflexivity|].
  split; [vm_compute; eexists; reflexivity|].
  vm_compute. reflexivity.
Qed.

Lemma settings_never_change_witness :
  Forall (fun r => settings r.1 = settings Scene.fresh)
    [Scene.step Scene.fresh Scene.frame1;
     Scene.step (Scene.after [Scene.frame1]) Scene.frame2].
Proof.
  apply (settings_never_change Scene.fresh [(Scene.frame1, tt); (Scene.frame2, tt)]).
  vm_compute. reflexivity.
Defined.

Lemma constructed_threshold_within_5_70_witness :
  Forall (fun r => 5 <= _fast_threshold r.1 <= 70)
    [Scene.step Scene.fresh Scene.frame1;
     Scene.step (Scene.after [Scene.frame1]) Scene.frame2;
     Scene.step (Scene.after [Scene.frame1; Scene.frame2]) Scene.frame3].
Proof.
  destruct (constructed_threshold_within_5_70 (GEO := Scene.geometry)
              (FRM := Scene.frame_api) (EST := Scene.estimator_api)
              (HOM := Scene.homography_api) (OPT := Scene.parsers) Scene.camera ∅
              Scene.fresh []
              [(Scene.frame1, tt); (Scene.frame2, tt); (Scene.frame3, tt)]
              [Scene.step Scene.fresh Scene.frame1;
               Scene.step (Scene.after [Scene.frame1]) Scene.frame2;
               Scene.step (Scene.after [Scene.frame1; Scene.frame2]) Scene.frame3])
    as (Hrange & _).
  - vm_compute. reflexivity.
  - vm_compute. reflexivity.
  - vm_compute. reflexivity.
  - exact Hrange.
Defined.

Lemma matching_skipped_iff_count_below_2_witness :
  _frame_count (Scene.step Scene.fresh Scene.frame1).1 = Int32.add 0 1 /\
  (estimates (Scene.step Scene.fresh Scene.frame1).2 = [] <->
   _frame_count (Scene.step Scene.fresh Scene.frame1).1 < 2).
Proof.
  apply (matching_skipped_iff_count_below_2 Scene.fresh _ Scene.frame1 tt).
  vm_compute. reflexivity.
Defined.

Lemma frame_pointers_stay_distinct_witness :
  Forall (fun r => distinct_frames r.1)
    [Scene.step Scene.fresh Scene.frame1;
     Scene.step (Scene.after [Scene.frame1]) Scene.frame2;
     Scene.step (Scene.after [Scene.frame1; Scene.frame2]) Scene.frame3].
Proof.
  destruct (frame_pointers_stay_distinct (GEO := Scene.geometry)
              (FRM := Scene.frame_api) (EST := Scene.estimator_api)
              (HOM := Scene.homography_api) (OPT := Scene.parsers) Scene.camera ∅
              Scene.fresh []
              [(Scene.frame1, tt); (Scene.frame2, tt); (Scene.frame3, tt)]
              [Scene.step Scene.fresh Scene.frame1;
               Scene.step (Scene.after [Scene.frame1]) Scene.frame2;
               Scene.step (Scene.after [Scene.frame1; Scene.frame2]) Scene.frame3])
    as (Hdistinct & _).
  - vm_compute. reflexivity.
  - vm_compute. reflexivity.
  - exact Hdistinct.
Defined.

Lemma pose_is_product_of_motion_estimates_witness :
  pose (_p (Scene.after [Scene.frame1; Scene.frame2; Scene.frame3; Scene.frame4]))
  = (3, 0, 0).
Proof.
  transitivity
    (pose (_p (final_state Scene.fresh
                 [Scene.step Scene.fresh Scene.frame1;
                  Scene.step (Scene.after [Scene.frame1]) Scene.frame2;
                  Scene.step (Scene.after [Scene.frame1; Scene.frame2]) Scene.frame3;
                  Scene.step (Scene.after [Scene.frame1; Scene.frame2; Scene.frame3])
                    Scene.frame4]))).
  - vm_compute. reflexivity.
  - rewrite (pose_is_product_of_motion_estimates Scene.fresh
               [(Scene.frame1, tt); (Scene.frame2, tt); (Scene.frame3, tt);
                (Scene.frame4, tt)]).
    + vm_compute. reflexivity.
    + exact scene_right_identity.
    + vm_compute. reflexivity.
Defined.

Lemma reference_pose_kept_witness :
  Scene.translate
    (pose (_p (Scene.after [Scene.frame1; Scene.frame2; Scene.frame2b])))
    (ref_to_prev_frame (_p (Scene.after [Scene.frame1; Scene.frame2; Scene.frame2b])))
  = Scene.translate
      (pose (_p (Scene.after [Scene.frame1; Scene.frame2])))
      (ref_to_prev_frame (_p (Scene.after [Scene.frame1; Scene.frame2]))).
Proof.
  transitivity
    (iso_mul
       (pose (_p (final_state (Scene.after [Scene.frame1; Scene.frame2])
                    [Scene.step (Scene.after [Scene.frame1; Scene.frame2])
                       Scene.frame2b])))
       (ref_to_prev_frame
          (_p (final_state (Scene.after [Scene.frame1; Scene.frame2])
                 [Scene.step (Scene.after [Scene.frame1; Scene.frame2])
                    Scene.frame2b])))).
  - vm_compute. reflexivity.
  - transitivity
      (iso_mul (pose (_p (Scene.after [Scene.frame1; Scene.frame2])))
         (ref_to_prev_frame (_p (Scene.after [Scene.frame1; Scene.frame2])))).
    + apply (reference_pose_kept (Scene.after [Scene.frame1; Scene.frame2])
               [(Scene.frame2b, tt)]).
      * exact scene_associative.
      * exact scene_right_identity.
      * exact scene_right_inverse.
      * vm_compute. reflexivity.
      * vm_compute. reflexivity.
      * repeat constructor.
        exists FrameB, FrameC, (1, 0, 0), 160. split; [vm_compute; reflexivity|].
        vm_compute. discriminate.
    + vm_compute. reflexivity.
Defined.

Lemma flag_down_iff_normal_witness :
  _change_reference_frames (Scene.step (Scene.after [Scene.frame1]) Scene.frame2).1 = false.
Proof.
  destruct (flag_down_iff_normal (Scene.after [Scene.frame1])
              (Scene.step (Scene.after [Scene.frame1]) Scene.frame2).1
              Scene.frame2 tt
              (Scene.step (Scene.after [Scene.frame1]) Scene.frame2).2)
    as [_ Hdown].
  - vm_compute. reflexivity.
  - apply Hdown.
    exists FrameB, FrameA, (0, 0, 0), 200. split; [vm_compute; reflexivity|].
    vm_compute. discriminate.
Defined.

Lemma call_structure_witness :
  (length (rotations
             (Scene.step
                (Scene.after [Scene.frame1; Scene.frame2; Scene.frame3; Scene.frame4;
                              Scene.frame5])
                Scene.frame6).2) <= 1)%nat.
Proof.
  destruct (call_structure
              (Scene.after [Scene.frame1; Scene.frame2; Scene.frame3; Scene.frame4;
                            Scene.frame5])
              (Scene.step
                 (Scene.after [Scene.frame1; Scene.frame2; Scene.frame3; Scene.frame4;
                               Scene.frame5])
                 Scene.frame6).1
              Scene.frame6 tt
              (Scene.step
                 (Scene.after [Scene.frame1; Scene.frame2; Scene.frame3; Scene.frame4;
                               Scene.frame5])
                 Scene.frame6).2)
    as (_ & Hlength & _).
  - vm_compute. reflexivity.
  - exact Hlength.
Defined.

Lemma no_homography_when_disabled_witness :
  rotations (Scene.step (Scene.step Scene.plain Scene.frame1).1 Scene.frame2).2 = [].
Proof.
  destruct (no_homography_when_disabled (Scene.step Scene.plain Scene.frame1).1
              (Scene.step (Scene.step Scene.plain Scene.frame1).1 Scene.frame2).1
              Scene.frame2 tt
              (Scene.step (Scene.step Scene.plain Scene.frame1).1 Scene.frame2).2)
    as (Hnone & _).
  - vm_compute. reflexivity.
  - vm_compute. reflexivity.
  - exact Hnone.
Defined.

Lemma initial_rotation_level_exists_witness :
  exists level downsample,
    [EvInitialRotation FrameB FrameC 2 2]
      = [EvInitialRotation FrameB FrameC level downsample] /\
    0 <= level <= 4 /\ level + downsample = 4.
Proof.
  destruct (initial_rotation_level_exists (GEO := Scene.geometry)
              (FRM := Scene.frame_api) (EST := Scene.estimator_api)
              (HOM := Scene.homography_api) (Scene.after [Scene.frame1])
              (set_initial_homography_est (GEO := Scene.geometry) tt
                 (set_initial_rotation_pyramid_level 4 (Scene.after [Scene.frame1])))
              FrameB FrameC tt [EvInitialRotation FrameB FrameC 2 2])
    as ((level & downsample & Hevs & Hlevel & _ & _ & Hsum) & _).
  - vm_compute. split; discriminate.
  - vm_compute. reflexivity.
  - exists level, downsample. auto.
Defined.


Lemma validateOptions_silent_iff_known_witness :
  validateOptions Scene.plain_options getDefaultOptions = [] <->
  forall key,
    is_Some (Scene.plain_options !! key) -> is_Some (getDefaultOptions !! key).
Proof. apply validateOptions_silent_iff_known. Defined.

